(** * The MCP mock server (Streamable-HTTP JSON-RPC), embedded in Rocq

    The development follows the server script: the JavaScript values that
    [JSON.parse] produces and the operators the handlers apply to them, the
    calls the handlers make on [res], [req], [fs], [console] and the timers,
    and then the handlers themselves, function by function. *)

From Stdlib Require Import NArith ZArith List String Ascii Bool Lia PrimFloat.
Import ListNotations.

Local Open Scope N_scope.
Local Open Scope list_scope.

(** ** JavaScript strings and values *)

Module JS.

(** A JavaScript string is a sequence of 16-bit code units; [s.length] is the
    number of code units. *)
Definition code_unit := N.
Definition jsstring := list code_unit.

(** A string literal of the source (the source's literals are ASCII). *)
Definition lit (s : string) : jsstring :=
  map N_of_ascii (list_ascii_of_string s).
Arguments lit s%_string.

Definition js_length (s : jsstring) : N := N.of_nat (List.length s).

Fixpoint str_eqb (s t : jsstring) : bool :=
  match s, t with
  | [], [] => true
  | a :: s', b :: t' => (a =? b) && str_eqb s' t'
  | _, _ => false
  end.

(** The values the handlers see: what [JSON.parse] returns (null, booleans,
    numbers as IEEE doubles, strings, arrays, plain objects with their own
    properties in insertion order), and [undefined], which reading an absent
    property gives. *)
#[local] Set Warnings "-register-all".
Inductive value : Type :=
| VUndefined
| VNull
| VBool (b : bool)
| VNumber (f : float)
| VString (s : jsstring)
| VArray (elems : list value)
| VObject (props : list (jsstring * value)).
Arguments VNumber f%_float.

Inductive exn : Type :=
| TypeError
| SyntaxError
| RangeError
| FsError.

(** The result of evaluating an expression: a value, or a thrown exception. *)
Inductive completion (A : Type) : Type :=
| Normal (a : A)
| Throw (e : exn).
Arguments Normal {A} a.
Arguments Throw {A} e.

Definition cbind {A B} (c : completion A) (k : A -> completion B) : completion B :=
  match c with
  | Normal a => k a
  | Throw e => Throw e
  end.

(** Own property lookup. *)
Fixpoint own (props : list (jsstring * value)) (k : jsstring) : option value :=
  match props with
  | [] => None
  | (k', v) :: rest => if str_eqb k' k then Some v else own rest k
  end.

Definition has_own (props : list (jsstring * value)) (k : jsstring) : bool :=
  match own props k with Some _ => true | None => false end.

(** [v.k], for the property names the server reads ([method], [id], [params],
    [name], [tool], [arguments], [message]): none of them is defined on
    [Object.prototype], [Array.prototype], [String.prototype],
    [Number.prototype] or [Boolean.prototype], so the read gives the own
    property of an object and [undefined] on every other receiver, except that
    reading a property of [null] or [undefined] throws a TypeError. *)
Definition get (v : value) (k : jsstring) : completion value :=
  match v with
  | VUndefined | VNull => Throw TypeError
  | VObject props =>
      Normal (match own props k with Some x => x | None => VUndefined end)
  | _ => Normal VUndefined
  end.

(** [v?.k] *)
Definition get_opt (v : value) (k : jsstring) : completion value :=
  match v with
  | VUndefined | VNull => Normal VUndefined
  | _ => get v k
  end.

(** ToBoolean: [undefined], [null], [false], [+0], [-0], [NaN] and the empty
    string are falsy. *)
Definition ToBoolean (v : value) : bool :=
  match v with
  | VUndefined | VNull => false
  | VBool b => b
  | VNumber f => negb (PrimFloat.eqb f 0) && PrimFloat.eqb f f
  | VString s => match s with [] => false | _ => true end
  | VArray _ | VObject _ => true
  end.

(** [a || b] *)
Definition or_else (a b : value) : value := if ToBoolean a then a else b.

(** [a ?? b] *)
Definition nullish (a b : value) : value :=
  match a with
  | VUndefined | VNull => b
  | _ => a
  end.

(** [v === 'literal'] *)
Definition strict_eq_str (v : value) (s : jsstring) : bool :=
  match v with
  | VString t => str_eqb t s
  | _ => false
  end.

Section ToString.

(** Number::toString, the runtime's shortest round-trip formatting of a
    double. *)
Variable Number_toString : float -> jsstring.

(** ToString, as a template literal applies it. An array is joined with
    commas, [null] and [undefined] elements giving the empty string. A plain
    object goes through OrdinaryToPrimitive: the inherited
    [Object.prototype.toString] answers "[object Object]", unless an own
    property [toString] hides it; a parsed property is never callable, and
    [valueOf] (own: not callable, inherited: returns the object itself) gives
    no primitive either, so the conversion throws a TypeError. *)
Fixpoint ToString (v : value) : completion jsstring :=
  match v with
  | VUndefined => Normal (lit "undefined")
  | VNull => Normal (lit "null")
  | VBool true => Normal (lit "true")
  | VBool false => Normal (lit "false")
  | VNumber f => Normal (Number_toString f)
  | VString s => Normal s
  | VArray elems =>
      (fix join (l : list value) : completion jsstring :=
         match l with
         | [] => Normal []
         | x :: rest =>
             cbind (match x with
                    | VUndefined | VNull => Normal []
                    | _ => ToString x
                    end)
               (fun s =>
                  match rest with
                  | [] => Normal s
                  | _ => cbind (join rest) (fun r => Normal (s ++ lit "," ++ r))
                  end)
         end) elems
  | VObject props =>
      if has_own props (lit "toString") then Throw TypeError
      else Normal (lit "[object Object]")
  end.

End ToString.

(** [Buffer.prototype.toString()]: UTF-8 decoding with U+FFFD for every
    ill-formed sequence, and UTF-16 encoding of the code points. *)
Definition utf16_encode (cp : N) : jsstring :=
  if cp <? 0x10000 then [cp]
  else [0xD800 + N.shiftr (cp - 0x10000) 10; 0xDC00 + N.land (cp - 0x10000) 0x3FF].

Record utf8_pending : Type := {
  needed : N;       (* continuation bytes still expected *)
  code_point : N;   (* bits gathered so far *)
  lower : N;        (* accepted range of the next byte *)
  upper : N
}.

Definition utf8_lead (b : N) : jsstring * option utf8_pending :=
  if b <=? 0x7F then ([b], None)
  else if (0xC2 <=? b) && (b <=? 0xDF) then
    ([], Some {| needed := 1; code_point := N.land b 0x1F; lower := 0x80; upper := 0xBF |})
  else if (0xE0 <=? b) && (b <=? 0xEF) then
    ([], Some {| needed := 2; code_point := N.land b 0xF;
                 lower := if b =? 0xE0 then 0xA0 else 0x80;
                 upper := if b =? 0xED then 0x9F else 0xBF |})
  else if (0xF0 <=? b) && (b <=? 0xF4) then
    ([], Some {| needed := 3; code_point := N.land b 0x7;
                 lower := if b =? 0xF0 then 0x90 else 0x80;
                 upper := if b =? 0xF4 then 0x8F else 0xBF |})
  else ([0xFFFD], None).

Fixpoint utf8_decode (p : option utf8_pending) (bytes : list Byte.byte) : jsstring :=
  match bytes with
  | [] => match p with None => [] | Some _ => [0xFFFD] end
  | x :: rest =>
      let b := Byte.to_N x in
      match p with
      | None => fst (utf8_lead b) ++ utf8_decode (snd (utf8_lead b)) rest
      | Some st =>
          if (lower st <=? b) && (b <=? upper st) then
            let cp := N.lor (N.shiftl (code_point st) 6) (N.land b 0x3F) in
            if needed st =? 1 then utf16_encode cp ++ utf8_decode None rest
            else utf8_decode (Some {| needed := needed st - 1; code_point := cp;
                                      lower := 0x80; upper := 0xBF |}) rest
          else
            0xFFFD :: fst (utf8_lead b) ++ utf8_decode (snd (utf8_lead b)) rest
      end
  end.

Definition Buffer_toString (chunk : list Byte.byte) : jsstring :=
  utf8_decode None chunk.

(** [JSON.stringify(v)], as the server calls it (no replacer, no indentation)
    on values built from parsed JSON: the text of SerializeJSONProperty, or a
    RangeError when the value nests deeper than the stack of the serializer
    allows. *)

(** QuoteJSONString: the escapes of JSON; a surrogate that is not part of a
    pair is escaped too. *)
Definition hex_digit (n : N) : code_unit :=
  if n <? 10 then 48 + n else 87 + n.

Definition unicode_escape (c : code_unit) : jsstring :=
  [92; 117; hex_digit (c / 4096 mod 16); hex_digit (c / 256 mod 16);
   hex_digit (c / 16 mod 16); hex_digit (c mod 16)].

Definition is_high_surrogate (c : code_unit) : bool :=
  (0xD800 <=? c) && (c <=? 0xDBFF).

Definition is_low_surrogate (c : code_unit) : bool :=
  (0xDC00 <=? c) && (c <=? 0xDFFF).

Fixpoint quote_units (s : jsstring) : jsstring :=
  match s with
  | [] => []
  | c :: rest =>
      if c =? 8 then [92; 98] ++ quote_units rest
      else if c =? 9 then [92; 116] ++ quote_units rest
      else if c =? 10 then [92; 110] ++ quote_units rest
      else if c =? 12 then [92; 102] ++ quote_units rest
      else if c =? 13 then [92; 114] ++ quote_units rest
      else if c =? 34 then [92; 34] ++ quote_units rest
      else if c =? 92 then [92; 92] ++ quote_units rest
      else if c <? 32 then unicode_escape c ++ quote_units rest
      else if is_high_surrogate c then
        match rest with
        | d :: rest' =>
            if is_low_surrogate d then c :: d :: quote_units rest'
            else unicode_escape c ++ quote_units rest
        | [] => unicode_escape c
        end
      else if is_low_surrogate c then unicode_escape c ++ quote_units rest
      else c :: quote_units rest
  end.

Definition QuoteJSONString (s : jsstring) : jsstring :=
  [34] ++ quote_units s ++ [34].

(** The nesting of arrays and objects in a value: what the serializer's
    recursion follows. *)
Fixpoint depth (v : value) : nat :=
  match v with
  | VArray elems =>
      S ((fix deepest (l : list value) : nat :=
            match l with
            | [] => O
            | x :: rest => Nat.max (depth x) (deepest rest)
            end) elems)
  | VObject props =>
      S ((fix deepest (l : list (jsstring * value)) : nat :=
            match l with
            | [] => O
            | (_, x) :: rest => Nat.max (depth x) (deepest rest)
            end) props)
  | _ => O
  end.

Section Stringify.

Variable Number_toString : float -> jsstring.

(** How many levels of nesting the stack of the serializer allows beyond the
    eight that the server's own envelopes and tool list need, which every
    engine serialises. *)
Variable stack_room : nat.

(** SerializeJSONProperty: [None] is [undefined] (a property with such a
    value is left out of an object, an element is written [null] in an
    array). The properties of an object are written in the order of the
    list, the order of enumeration. A parsed value has no callable [toJSON].
    A number that is not finite is written [null]. *)
Fixpoint SerializeJSONProperty (v : value) : option jsstring :=
  match v with
  | VUndefined => None
  | VNull => Some (lit "null")
  | VBool true => Some (lit "true")
  | VBool false => Some (lit "false")
  | VNumber f => Some (if PrimFloat.is_finite f then Number_toString f else lit "null")
  | VString s => Some (QuoteJSONString s)
  | VArray elems =>
      Some
        (lit "[" ++
         (fix items (l : list value) (first : bool) : jsstring :=
            match l with
            | [] => []
            | x :: rest =>
                (if first then [] else lit ",") ++
                match SerializeJSONProperty x with
                | Some t => t
                | None => lit "null"
                end ++ items rest false
            end) elems true ++
         lit "]")
  | VObject props =>
      Some
        (lit "{" ++
         (fix members (l : list (jsstring * value)) (first : bool) : jsstring :=
            match l with
            | [] => []
            | (k, x) :: rest =>
                match SerializeJSONProperty x with
                | Some t =>
                    (if first then [] else lit ",") ++
                    QuoteJSONString k ++ lit ":" ++ t ++ members rest false
                | None => members rest first
                end
            end) props true ++
         lit "}")
  end.

(** The text [JSON.stringify] returns; for [undefined] it returns
    [undefined], which the callers print or concatenate as "undefined". *)
Definition JSON_text (v : value) : jsstring :=
  match SerializeJSONProperty v with
  | Some t => t
  | None => lit "undefined"
  end.

Definition stringify_depth_limit : nat := 8 + stack_room.

Definition too_deep (v : value) : bool :=
  Nat.ltb stringify_depth_limit (depth v).

Definition JSON_stringify (v : value) : completion jsstring :=
  if too_deep v then Throw RangeError else Normal (JSON_text v).

End Stringify.

End JS.

Import JS.

(** ** The runtime: response, request, console, file system, timers *)

Module Node.

(** A call made on the response object [res]. *)
Inductive res_call : Type :=
| WriteHead (status : Z) (headers : list (jsstring * jsstring))
| Write (chunk : jsstring)
| End (data : option jsstring).

(** The callbacks a request handler registers on [req]. *)
Inductive listener : Type :=
| OnData
| OnEnd
| OnClose.

Definition listener_eqb (a b : listener) : bool :=
  match a, b with
  | OnData, OnData | OnEnd, OnEnd | OnClose, OnClose => true
  | _, _ => false
  end.

(** What one connection and the process around it consist of, as far as the
    handlers touch it. *)
Record state : Type := {
  body : jsstring;                        (* [let body = ''] of the request closure *)
  socket_destroyed : bool;                (* [req.socket.destroy()] was called *)
  res_calls : list res_call;              (* calls on [res], oldest first *)
  listeners : list listener;              (* [req.on(...)] registrations *)
  interval : option (N * N);              (* [setInterval]: period and ms until the next run *)
  stdout : list jsstring;                 (* lines of [console.log], oldest first *)
  files : list (jsstring * jsstring);     (* appended (path, data), oldest first *)
  fs_faults : list bool;                  (* whether the coming [fs.appendFileSync] calls throw *)
  uncaught : option exn                   (* an exception escaped a callback *)
}.

Definition initial (faults : list bool) : state :=
  {| body := []; socket_destroyed := false; res_calls := []; listeners := [];
     interval := None; stdout := []; files := []; fs_faults := faults;
     uncaught := None |}.

(** Handlers run in a state-and-exception monad. *)
Definition M (A : Type) : Type := state -> completion A * state.

Definition ret {A} (a : A) : M A := fun st => (Normal a, st).

Definition bind {A B} (m : M A) (k : A -> M B) : M B :=
  fun st =>
    match m st with
    | (Normal a, st') => k a st'
    | (Throw e, st') => (Throw e, st')
    end.

Definition throw {A} (e : exn) : M A := fun st => (Throw e, st).

(** [try { m } catch (e) { h }] *)
Definition try_catch {A} (m : M A) (h : exn -> M A) : M A :=
  fun st =>
    match m st with
    | (Normal a, st') => (Normal a, st')
    | (Throw e, st') => h e st'
    end.

(** An expression that may throw, evaluated inside a handler. *)
Definition eval {A} (c : completion A) : M A := fun st => (c, st).

Declare Scope js_scope.
Delimit Scope js_scope with js.
Notation "x <- m ;; k" := (bind m (fun x => k))
  (at level 61, m at next level, right associativity) : js_scope.
Notation "m ;; k" := (bind m (fun _ => k))
  (at level 61, right associativity) : js_scope.

Definition res_writeHead (status : Z) (headers : list (jsstring * jsstring)) : M unit :=
  fun st =>
    (Normal tt,
     {| body := body st; socket_destroyed := socket_destroyed st;
        res_calls := res_calls st ++ [WriteHead status headers];
        listeners := listeners st; interval := interval st; stdout := stdout st;
        files := files st; fs_faults := fs_faults st; uncaught := uncaught st |}).

Definition res_write (chunk : jsstring) : M unit :=
  fun st =>
    (Normal tt,
     {| body := body st; socket_destroyed := socket_destroyed st;
        res_calls := res_calls st ++ [Write chunk];
        listeners := listeners st; interval := interval st; stdout := stdout st;
        files := files st; fs_faults := fs_faults st; uncaught := uncaught st |}).

Definition res_end (data : option jsstring) : M unit :=
  fun st =>
    (Normal tt,
     {| body := body st; socket_destroyed := socket_destroyed st;
        res_calls := res_calls st ++ [End data];
        listeners := listeners st; interval := interval st; stdout := stdout st;
        files := files st; fs_faults := fs_faults st; uncaught := uncaught st |}).

(** [console.log(a, b, ...)] prints its arguments separated by spaces. *)
Fixpoint join_spaces (args : list jsstring) : jsstring :=
  match args with
  | [] => []
  | [a] => a
  | a :: rest => a ++ lit " " ++ join_spaces rest
  end.

Definition console_log (args : list jsstring) : M unit :=
  fun st =>
    (Normal tt,
     {| body := body st; socket_destroyed := socket_destroyed st;
        res_calls := res_calls st; listeners := listeners st;
        interval := interval st;
        stdout := stdout st ++ [join_spaces args];
        files := files st; fs_faults := fs_faults st; uncaught := uncaught st |}).

(** [fs.appendFileSync(path, data)]: appends, or throws when the file system
    refuses (disk full, permission denied); the outcome of each call is given
    by [fs_faults], an empty list meaning success. *)
Definition fs_appendFileSync (path data : jsstring) : M unit :=
  fun st =>
    match fs_faults st with
    | true :: later =>
        (Throw FsError,
         {| body := body st; socket_destroyed := socket_destroyed st;
            res_calls := res_calls st; listeners := listeners st;
            interval := interval st; stdout := stdout st; files := files st;
            fs_faults := later; uncaught := uncaught st |})
    | later =>
        (Normal tt,
         {| body := body st; socket_destroyed := socket_destroyed st;
            res_calls := res_calls st; listeners := listeners st;
            interval := interval st; stdout := stdout st;
            files := files st ++ [(path, data)];
            fs_faults := tl later; uncaught := uncaught st |})
    end.

Definition req_on (l : listener) : M unit :=
  fun st =>
    (Normal tt,
     {| body := body st; socket_destroyed := socket_destroyed st;
        res_calls := res_calls st; listeners := listeners st ++ [l];
        interval := interval st; stdout := stdout st; files := files st;
        fs_faults := fs_faults st; uncaught := uncaught st |}).

Definition req_socket_destroy : M unit :=
  fun st =>
    (Normal tt,
     {| body := body st; socket_destroyed := true;
        res_calls := res_calls st; listeners := listeners st;
        interval := interval st; stdout := stdout st; files := files st;
        fs_faults := fs_faults st; uncaught := uncaught st |}).

Definition set_interval_field (i : option (N * N)) (st : state) : state :=
  {| body := body st; socket_destroyed := socket_destroyed st;
     res_calls := res_calls st; listeners := listeners st;
     interval := i; stdout := stdout st; files := files st;
     fs_faults := fs_faults st; uncaught := uncaught st |}.

(** [setInterval(callback, ms)]: the callback first runs [ms] milliseconds
    from now, and then every [ms] milliseconds (a delay below 1 counts as 1). *)
Definition setInterval (ms : N) : M unit :=
  fun st => (Normal tt, set_interval_field (Some (N.max 1 ms, N.max 1 ms)) st).

Definition clearInterval : M unit :=
  fun st => (Normal tt, set_interval_field None st).

Definition get_body : M jsstring := fun st => (Normal (body st), st).

Definition set_body (s : jsstring) : M unit :=
  fun st =>
    (Normal tt,
     {| body := s; socket_destroyed := socket_destroyed st;
        res_calls := res_calls st; listeners := listeners st;
        interval := interval st; stdout := stdout st; files := files st;
        fs_faults := fs_faults st; uncaught := uncaught st |}).

(** Running a callback from the event loop: an exception that escapes it is
    uncaught, and the process dies with it. *)
Definition run_callback (m : M unit) (st : state) : state :=
  match m st with
  | (Normal _, st') => st'
  | (Throw e, st') =>
      {| body := body st'; socket_destroyed := socket_destroyed st';
         res_calls := res_calls st'; listeners := listeners st';
         interval := interval st'; stdout := stdout st'; files := files st';
         fs_faults := fs_faults st'; uncaught := Some e |}
  end.

(** What reaches the client: the calls on [res], unless the socket was
    destroyed, in which case nothing written afterwards is transmitted. The
    POST handlers write nothing before the end of the body, so for them a
    destroyed socket means an empty response. *)
Definition client_view (st : state) : list res_call :=
  if socket_destroyed st then [] else res_calls st.

(** The part of the state that a log write cannot touch. *)
Definition conn_part (st : state) :=
  (body st, socket_destroyed st, listeners st, interval st, uncaught st).

(** [runs st m r calls]: started in [st], [m] completes with [r], makes
    exactly the calls [calls] on [res], and leaves the connection as it was.
    [writes m r calls]: so it does from every state. *)
Definition runs {A} (st : state) (m : M A) (r : completion A)
    (calls : list res_call) : Prop :=
  fst (m st) = r /\
  res_calls (snd (m st)) = res_calls st ++ calls /\
  conn_part (snd (m st)) = conn_part st.

Definition writes {A} (m : M A) (r : completion A) (calls : list res_call) : Prop :=
  forall st, runs st m r calls.

End Node.


(** ** The server *)

Import Node.
Local Open Scope js_scope.

Definition str (s : string) : value := VString (lit s).
Arguments str s%_string.

Definition newline : jsstring := [10].
Definition dquote : jsstring := [34].

(** [const tools = [...]] *)
Definition tools : value :=
  VArray
    [VObject
       [(lit "name", str "echo");
        (lit "description", str "Echoes the provided input back as result");
        (lit "parameters",
         VObject
           [(lit "type", str "object");
            (lit "properties",
             VObject [(lit "message", VObject [(lit "type", str "string")])]);
            (lit "required", VArray [str "message"])])]].

Definition json_headers : list (jsstring * jsstring) :=
  [(lit "Content-Type", lit "application/json")].

Definition sse_headers : list (jsstring * jsstring) :=
  [(lit "Content-Type", lit "text/event-stream");
   (lit "Cache-Control", lit "no-cache");
   (lit "Connection", lit "keep-alive");
   (lit "Access-Control-Allow-Origin", lit "*")].

(** The two chunks the SSE route writes. *)
Definition sse_message_event : jsstring :=
  lit "event: message" ++ newline ++
  lit "data: {" ++ dquote ++ lit "status" ++ dquote ++ lit ":" ++
  dquote ++ lit "ok" ++ dquote ++ lit "}" ++ newline ++ newline.

Definition sse_ping_event : jsstring :=
  lit "event: ping" ++ newline ++ lit "data: {}" ++ newline ++ newline.

Record request : Type := {
  req_method : jsstring;
  req_url : jsstring
}.

Inductive event : Type :=
| EvData (chunk : list Byte.byte)   (* [req] emits 'data' *)
| EvEnd                             (* [req] emits 'end' *)
| EvClose                           (* [req] emits 'close' *)
| EvElapse (ms : N).                (* [ms] milliseconds pass *)

Section Server.

(** The runtime: [JSON.parse], which either returns a value or throws a
    SyntaxError, the formatting of numbers, and the room on the stack for
    [JSON.stringify]. *)
Variable JSON_parse : jsstring -> completion value.
Variable Number_toString : float -> jsstring.
Variable stack_room : nat.

Definition makeJsonRpcResult (id result : value) : completion jsstring :=
  JSON_stringify Number_toString stack_room
    (VObject [(lit "jsonrpc", str "2.0"); (lit "result", result); (lit "id", id)]).

Definition makeJsonRpcError (id code message : value) : completion jsstring :=
  JSON_stringify Number_toString stack_room
    (VObject
       [(lit "jsonrpc", str "2.0");
        (lit "error", VObject [(lit "code", code); (lit "message", message)]);
        (lit "id", id)]).

Definition sendResult (id resultObj : value) : M unit :=
  body <- eval (makeJsonRpcResult id resultObj) ;;
  try_catch
    (console_log [lit "MCP mock response:"; body] ;;
     fs_appendFileSync (lit "/tmp/mcp-mock-responses.log") (body ++ newline))
    (fun _ => ret tt) ;;
  res_writeHead 200 json_headers ;;
  res_end (Some body).

Definition sendError (id code message : value) (statusCode : Z) : M unit :=
  body <- eval (makeJsonRpcError id code message) ;;
  try_catch
    (console_log [lit "MCP mock error response:"; body] ;;
     fs_appendFileSync (lit "/tmp/mcp-mock-responses.log") (body ++ newline))
    (fun _ => ret tt) ;;
  res_writeHead statusCode json_headers ;;
  res_end (Some body).

(** [a || <b>], the right operand evaluated only when [a] is falsy. *)
Definition or_elseM (a : value) (b : M value) : M value :=
  if ToBoolean a then ret a else b.

(** The branch [method === 'tools/call' || method === 'callTool']. *)
Definition tools_call (parsed id : value) : M unit :=
  p <- eval (get parsed (lit "params")) ;;
  let params := or_else p (VObject []) in
  pname <- eval (get params (lit "name")) ;;
  name <- or_elseM pname
            (tool <- eval (get params (lit "tool")) ;;
             tname <- eval (get_opt tool (lit "name")) ;;
             ret (or_else tname VNull)) ;;
  pargs <- eval (get params (lit "arguments")) ;;
  args <- or_elseM pargs
            (tool <- eval (get params (lit "tool")) ;;
             targs <- eval (get_opt tool (lit "arguments")) ;;
             ret (or_else targs (VObject []))) ;;
  if negb (ToBoolean name) then
    sendError id (VNumber (-32602)) (str "Missing tool name") 400
  else if strict_eq_str name (lit "echo") then
    m <- eval (get args (lit "message")) ;;
    let message := or_else m (str "") in
    sendResult id
      (VObject [(lit "type", str "tool_result");
                (lit "value", VObject [(lit "output", message)])])
  else
    shown <- eval (ToString Number_toString name) ;;
    sendError id (VNumber (-32000)) (VString (lit "Tool not found: " ++ shown)) 404.

Definition initialize_result : value :=
  VObject
    [(lit "protocolVersion", str "2025-11-25");
     (lit "capabilities",
      VObject [(lit "supportsToolCalls", VBool true);
               (lit "supportsStreams", VBool false)]);
     (lit "serverInfo",
      VObject [(lit "name", str "librechat-mcp-mock");
               (lit "version", str "0.1.0")])].

Definition acceptedNoopMethods : list jsstring :=
  [lit "serverInfo"; lit "getMetadata"; lit "status"; lit "ping"].

(** The chain of [if (method === ...)] tests of the 'end' callback. *)
Definition route (method id parsed : value) : M unit :=
  if strict_eq_str method (lit "listTools") || strict_eq_str method (lit "tools/list") then
    sendResult id (VObject [(lit "tools", tools)])
  else if strict_eq_str method (lit "listResources")
          || strict_eq_str method (lit "resources/list") then
    sendResult id (VObject [(lit "resources", VArray [])])
  else if strict_eq_str method (lit "listPrompts")
          || strict_eq_str method (lit "prompts/list") then
    sendResult id (VObject [(lit "prompts", VArray [])])
  else if strict_eq_str method (lit "tools/call")
          || strict_eq_str method (lit "callTool") then
    tools_call parsed id
  else if strict_eq_str method (lit "ping") then
    sendResult id (VObject [])
  else if strict_eq_str method (lit "initialize")
          || strict_eq_str method (lit "init")
          || strict_eq_str method (lit "handshake") then
    sendResult id initialize_result
  else if existsb (strict_eq_str method) acceptedNoopMethods then
    sendResult id (VObject [])
  else
    sendError id (VNumber (-32601)) (str "Method not found") 404.

(** The 'end' callback after a successful [JSON.parse]: [method] and [id] are
    read, the request is logged, and the method is looked up. The first
    [JSON.stringify] is inside a [try], the second one is not. *)
Definition dispatch (parsed : value) : M unit :=
  method <- eval (get parsed (lit "method")) ;;
  i <- eval (get parsed (lit "id")) ;;
  let id := nullish i VNull in
  try_catch
    (text <- eval (JSON_stringify Number_toString stack_room parsed) ;;
     console_log [lit "Incoming JSON-RPC request:"; text])
    (fun _ => console_log [lit "Incoming JSON-RPC request (unserializable)"]) ;;
  p <- eval (get parsed (lit "params")) ;;
  logLine <-
    eval (JSON_stringify Number_toString stack_room
            (VObject [(lit "method", method); (lit "id", id); (lit "params", p)])) ;;
  console_log [lit "MCP mock received request:"; logLine] ;;
  try_catch
    (fs_appendFileSync (lit "/tmp/mcp-mock-requests.log") (logLine ++ newline))
    (fun _ => ret tt) ;;
  route method id parsed.

(** [req.on('data', (chunk) => ...)] *)
Definition on_data (chunk : list Byte.byte) : M unit :=
  b <- get_body ;;
  set_body (b ++ Buffer_toString chunk) ;;
  b' <- get_body ;;
  if 1000000 <? js_length b' then req_socket_destroy else ret tt.

(** [req.on('end', () => ...)] *)
Definition on_end : M unit :=
  b <- get_body ;;
  match JSON_parse b with
  | Throw _ =>
      res_writeHead 400 json_headers ;;
      text <- eval (makeJsonRpcError VNull (VNumber (-32700)) (str "Parse error")) ;;
      res_end (Some text)
  | Normal parsed => dispatch parsed
  end.

(** The callback given to [setInterval] and the 'close' callback of the SSE
    route. *)
Definition interval_callback : M unit := res_write sse_ping_event.

Definition on_close : M unit := clearInterval.

(** [http.createServer((req, res) => ...)] *)
Definition requestListener (req : request) : M unit :=
  if str_eqb (req_method req) (lit "GET") && str_eqb (req_url req) (lit "/health") then
    res_writeHead 200 json_headers ;;
    text <- eval (JSON_stringify Number_toString stack_room
                    (VObject [(lit "status", str "ok")])) ;;
    res_end (Some text)
  else if str_eqb (req_method req) (lit "GET") && str_eqb (req_url req) (lit "/sse") then
    res_writeHead 200 sse_headers ;;
    res_write sse_message_event ;;
    setInterval 15000 ;;
    req_on OnClose
  else if negb (str_eqb (req_method req) (lit "POST")) then
    res_writeHead 405 [] ;;
    res_end None
  else
    set_body (lit "") ;;
    req_on OnData ;;
    req_on OnEnd.

(** The event loop: one millisecond of the interval timer, and the delivery
    of an event to the callbacks that were registered. Nothing runs once an
    exception went uncaught. *)
Definition tick (st : state) : state :=
  match interval st with
  | None => st
  | Some (period, remaining) =>
      if remaining <=? 1 then
        run_callback interval_callback (set_interval_field (Some (period, period)) st)
      else set_interval_field (Some (period, remaining - 1)) st
  end.

Definition has_listener (l : listener) (st : state) : bool :=
  existsb (listener_eqb l) (listeners st).

Definition deliver (st : state) (ev : event) : state :=
  match uncaught st with
  | Some _ => st
  | None =>
      match ev with
      | EvData chunk =>
          if has_listener OnData st then run_callback (on_data chunk) st else st
      | EvEnd => if has_listener OnEnd st then run_callback on_end st else st
      | EvClose => if has_listener OnClose st then run_callback on_close st else st
      | EvElapse ms => N.iter ms tick st
      end
  end.

(** A connection: the request arrives, then the events follow. *)
Definition connection (faults : list bool) (req : request) (evs : list event) : state :=
  fold_left deliver evs (run_callback (requestListener req) (initial faults)).

(** ** The vocabulary of the specification *)

(** [v.k] where the read cannot throw; [undefined] otherwise. *)
Definition member (v : value) (k : jsstring) : value :=
  match get v k with
  | Normal x => x
  | Throw _ => VUndefined
  end.

(** The id of a request: its member [id], and [null] when there is none. *)
Definition request_id (parsed : value) : value :=
  match parsed with
  | VObject props =>
      match own props (lit "id") with
      | Some VUndefined | None => VNull
      | Some v => v
      end
  | _ => VNull
  end.

(** A JSON-RPC envelope: [{ jsonrpc: '2.0', <result or error>, id }]. *)
Definition envelope (payload : jsstring * value) (id : value) : value :=
  VObject [(lit "jsonrpc", str "2.0"); payload; (lit "id", id)].

Definition result_envelope (id result : value) : value :=
  envelope (lit "result", result) id.

Definition error_envelope (id : value) (code : float) (message : jsstring) : value :=
  envelope
    (lit "error",
     VObject [(lit "code", VNumber code); (lit "message", VString message)])
    id.

(** One complete JSON response: a head with the status and the JSON content
    type, then the end of the response with the encoded envelope. *)
Definition json_response (status : Z) (env : value) : list res_call :=
  [WriteHead status json_headers; End (Some (JSON_text Number_toString env))].

(** The object of the request log line: [{ method, id, params }]. *)
Definition log_object (parsed : value) : value :=
  VObject [(lit "method", member parsed (lit "method"));
           (lit "id", request_id parsed);
           (lit "params", member parsed (lit "params"))].

(** [JSON.stringify(v)] returns: [v] does not nest deeper than the stack
    allows. *)
Definition serializes (v : value) : Prop := too_deep stack_room v = false.

(** The method names and aliases the specification lists. *)
Definition known_methods : list jsstring :=
  [lit "listTools"; lit "tools/list"; lit "listResources"; lit "resources/list";
   lit "listPrompts"; lit "prompts/list"; lit "tools/call"; lit "callTool";
   lit "initialize"; lit "init"; lit "handshake"; lit "ping"; lit "serverInfo";
   lit "getMetadata"; lit "status"].

(** The parameters, tool name and tool arguments of a [tools/call] request:
    [params.name], else [params.tool.name]; [params.arguments], else
    [params.tool.arguments], else [{}]. *)
Definition request_params (parsed : value) : value :=
  or_else (member parsed (lit "params")) (VObject []).

Definition tool_name (parsed : value) : value :=
  or_else (member (request_params parsed) (lit "name"))
    (or_else (member (member (request_params parsed) (lit "tool")) (lit "name")) VNull).

Definition tool_arguments (parsed : value) : value :=
  or_else (member (request_params parsed) (lit "arguments"))
    (or_else (member (member (request_params parsed) (lit "tool")) (lit "arguments"))
       (VObject [])).

(** A body that is valid JSON but neither an object nor [null]. *)
Definition scalar_or_array (v : value) : bool :=
  match v with
  | VBool _ | VNumber _ | VString _ | VArray _ => true
  | _ => false
  end.

(** [{"jsonrpc":"2.0","method":"tools/call","id":1,
      "params":{"name":{"toString":1}}}], parsed. *)
Definition tool_named_by_object : value :=
  VObject
    [(lit "jsonrpc", str "2.0");
     (lit "method", str "tools/call");
     (lit "id", VNumber 1);
     (lit "params",
      VObject [(lit "name", VObject [(lit "toString", VNumber 1)])])].

(** The milliseconds that pass during a sequence of events, and whether the
    client stays connected throughout. *)
Definition elapsed (evs : list event) : N :=
  fold_right (fun ev acc => match ev with EvElapse ms => ms + acc | _ => acc end) 0 evs.

Definition no_close (evs : list event) : bool :=
  forallb (fun ev => match ev with EvClose => false | _ => true end) evs.

(** What the SSE route has written after [n] keep-alive periods. *)
Definition sse_stream (n : N) : list res_call :=
  [WriteHead 200 sse_headers; Write sse_message_event]
  ++ repeat (Write sse_ping_event) (N.to_nat n).

(** An open SSE connection, [e] milliseconds after the request. *)
Definition sse_open (e : N) (st : state) : Prop :=
  uncaught st = None /\
  listeners st = [OnClose] /\
  interval st = Some (15000, 15000 - e mod 15000) /\
  res_calls st = sse_stream (e / 15000).

(** An SSE connection after the 'close' event. *)
Definition sse_closed (calls : list res_call) (st : state) : Prop :=
  uncaught st = None /\
  listeners st = [OnClose] /\
  interval st = None /\
  res_calls st = calls.

(** Two states that differ at most in what was logged and in the faults of
    the file system. *)
Definition low_eq (s1 s2 : state) : Prop :=
  conn_part s1 = conn_part s2 /\ res_calls s1 = res_calls s2.

(** A chunk of [n] euro signs, three bytes each in UTF-8 (E2 82 AC), one
    code unit each (U+20AC) in the decoded string. *)
Definition euro_sign : list Byte.byte := [Byte.xe2; Byte.x82; Byte.xac].

Definition euro_signs (n : nat) : list Byte.byte := List.concat (repeat euro_sign n).

Definition post_request : request :=
  {| req_method := lit "POST"; req_url := lit "/" |}.

(** What the chain of tests answers to each method name other than the two
    of the tool call. *)
Definition static_methods : list (jsstring * value) :=
  [(lit "listTools", VObject [(lit "tools", tools)]);
   (lit "tools/list", VObject [(lit "tools", tools)]);
   (lit "listResources", VObject [(lit "resources", VArray [])]);
   (lit "resources/list", VObject [(lit "resources", VArray [])]);
   (lit "listPrompts", VObject [(lit "prompts", VArray [])]);
   (lit "prompts/list", VObject [(lit "prompts", VArray [])]);
   (lit "ping", VObject []);
   (lit "initialize", initialize_result);
   (lit "init", initialize_result);
   (lit "handshake", initialize_result);
   (lit "serverInfo", VObject []);
   (lit "getMetadata", VObject []);
   (lit "status", VObject [])].

(** The answer of the specification's table to a parsed request, as a status
    and the [result] or [error] member of the envelope; an unknown tool whose
    name cannot be shown has none. *)
Definition error_payload (code : float) (message : jsstring) : jsstring * value :=
  (lit "error", VObject [(lit "code", VNumber code); (lit "message", VString message)]).

Definition tool_reply (parsed : value) : completion (Z * (jsstring * value)) :=
  if negb (ToBoolean (tool_name parsed)) then
    Normal (400%Z, error_payload (-32602) (lit "Missing tool name"))
  else if strict_eq_str (tool_name parsed) (lit "echo") then
    Normal
      (200%Z,
       (lit "result",
        VObject
          [(lit "type", str "tool_result");
           (lit "value",
            VObject
              [(lit "output",
                or_else (member (tool_arguments parsed) (lit "message")) (str ""))])]))
  else
    cbind (ToString Number_toString (tool_name parsed))
      (fun shown =>
         Normal (404%Z, error_payload (-32000) (lit "Tool not found: " ++ shown))).

Definition reply (parsed : value) : completion (Z * (jsstring * value)) :=
  match member parsed (lit "method") with
  | VString m =>
      match own static_methods m with
      | Some result => Normal (200%Z, (lit "result", result))
      | None =>
          if str_eqb m (lit "tools/call") || str_eqb m (lit "callTool")
          then tool_reply parsed
          else Normal (404%Z, error_payload (-32601) (lit "Method not found"))
      end
  | _ => Normal (404%Z, error_payload (-32601) (lit "Method not found"))
  end.

(** An array nested in [n] more arrays. *)
Fixpoint deeply_nested (n : nat) : value :=
  match n with
  | O => VArray []
  | S k => VArray [deeply_nested k]
  end.

(** The text of an envelope, given the key and the text of its payload and
    the text of its id. *)
Definition envelope_text (key payload_text id_text : jsstring) : jsstring :=
  lit "{" ++ QuoteJSONString (lit "jsonrpc") ++ lit ":" ++ QuoteJSONString (lit "2.0")
  ++ lit "," ++ QuoteJSONString key ++ lit ":" ++ payload_text
  ++ lit "," ++ QuoteJSONString (lit "id") ++ lit ":" ++ id_text ++ lit "}".

(** [{"method":"unknown-thing","id":5,"params":[[...[]...]]}], parsed, with
    params nested one level deeper than the serializer can follow. *)
Definition unknown_method_deep_params : value :=
  VObject [(lit "method", str "unknown-thing"); (lit "id", VNumber 5);
           (lit "params", deeply_nested (8 + stack_room))].

(** [{"method":"tools/call","id":[[...[]...]],"params":{"name":""}}], parsed,
    with an id nested one level deeper than the serializer can follow. *)
Definition empty_tool_name_deep_id : value :=
  VObject [(lit "method", str "tools/call");
           (lit "id", deeply_nested (8 + stack_room));
           (lit "params", VObject [(lit "name", str "")])].

(** A step that makes no call on [res]. *)
Definition silent {A} (m : M A) : Prop := exists c, writes m c [].

(** [answers id m]: [m] either throws before any call on [res], or completes
    after exactly one JSON response whose envelope carries [id]. *)
Definition answers (id : value) (m : M unit) : Prop :=
  exists r calls,
    writes m r calls /\
    (((exists e, r = Throw e) /\ calls = []) \/
     (r = Normal tt /\
      exists status payload, calls = json_response status (envelope payload id))).

(** ** Reasoning about handlers *)

Lemma writes_ret {A} (a : A) : writes (ret a) (Normal a) [].
Proof. intro st; unfold runs. cbn. rewrite app_nil_r. auto. Qed.

Lemma writes_eval {A} (c : completion A) : writes (eval c) c [].
Proof. intro st; unfold runs. cbn. rewrite app_nil_r. auto. Qed.

Lemma writes_bind {A B} (m : M A) (k : A -> M B) a r c1 c2 :
  writes m (Normal a) c1 -> writes (k a) r c2 -> writes (bind m k) r (c1 ++ c2).
Proof.
  intros Hm Hk st. unfold runs, bind.
  destruct (Hm st) as (Hr & Hc & Hp).
  destruct (m st) as [[x|e] st']; cbn in Hr, Hc, Hp; try discriminate.
  injection Hr as ->.
  destruct (Hk st') as (Hr' & Hc' & Hp').
  rewrite Hr', Hc', Hp', Hc, Hp, app_assoc. auto.
Qed.

Lemma writes_bind_throw {A B} (m : M A) (k : A -> M B) e c :
  writes m (Throw e) c -> writes (bind m k) (Throw e) c.
Proof.
  intros Hm st. unfold runs, bind.
  destruct (Hm st) as (Hr & Hc & Hp).
  destruct (m st) as [[x|e'] st']; cbn in Hr, Hc, Hp; try discriminate.
  injection Hr as ->. cbn. auto.
Qed.

Lemma writes_res_writeHead status headers :
  writes (res_writeHead status headers) (Normal tt) [WriteHead status headers].
Proof. intro st; unfold runs. cbn. auto. Qed.

Lemma writes_res_end data : writes (res_end data) (Normal tt) [End data].
Proof. intro st; unfold runs. cbn. auto. Qed.

Lemma writes_console_log args : writes (console_log args) (Normal tt) [].
Proof. intro st; unfold runs. cbn. rewrite app_nil_r. auto. Qed.

(** A failing append is swallowed by its [try]/[catch]. *)
Lemma writes_try_append path data :
  writes (try_catch (fs_appendFileSync path data) (fun _ => ret tt)) (Normal tt) [].
Proof.
  intro st; unfold runs. unfold try_catch, fs_appendFileSync.
  destruct (fs_faults st) as [|[|] later]; cbn; rewrite app_nil_r; auto.
Qed.

Lemma writes_try_log_append args path data :
  writes (try_catch (console_log args ;; fs_appendFileSync path data)
                    (fun _ => ret tt)) (Normal tt) [].
Proof.
  intro st; unfold runs. unfold try_catch, bind, console_log, fs_appendFileSync. cbn.
  destruct (fs_faults st) as [|[|] later]; cbn; rewrite app_nil_r; auto.
Qed.

Lemma writes_try_log args args' :
  writes (try_catch (console_log args) (fun _ => console_log args')) (Normal tt) [].
Proof. intro st; unfold runs. cbn. rewrite app_nil_r. auto. Qed.

(** *** Sending *)

(** [sends status env m]: [m] serialises the envelope [env] first; when that
    throws, [m] throws the RangeError without any call on [res], and
    otherwise it makes the one JSON response with [status] and [env]. *)
Definition sends (status : Z) (env : value) (m : M unit) : Prop :=
  writes m (if too_deep stack_room env then Throw RangeError else Normal tt)
    (if too_deep stack_room env then [] else json_response status env).

Lemma writes_bind_eval {A B} (c : completion A) (k : A -> M B) a r calls :
  c = Normal a -> writes (k a) r calls -> writes (bind (eval c) k) r calls.
Proof.
  intros -> Hk. change calls with ([] ++ calls).
  eapply writes_bind; [apply writes_eval | exact Hk].
Qed.

Lemma writes_bind_silent {A B} (m : M A) (k : A -> M B) a r calls :
  writes m (Normal a) [] -> writes (k a) r calls -> writes (bind m k) r calls.
Proof. intros Hm Hk. change calls with ([] ++ calls). eapply writes_bind; eauto. Qed.

Lemma writes_bind_eval_throw {A B} (c : completion A) (k : A -> M B) e :
  c = Throw e -> writes (bind (eval c) k) (Throw e) [].
Proof. intros ->. apply writes_bind_throw, writes_eval. Qed.

Lemma sends_sendResult id resultObj :
  sends 200 (result_envelope id resultObj) (sendResult id resultObj).
Proof.
  unfold sends, sendResult, makeJsonRpcResult, JSON_stringify, result_envelope, envelope.
  destruct (too_deep stack_room _).
  - apply writes_bind_eval_throw. reflexivity.
  - eapply writes_bind_eval; [reflexivity|].
    eapply writes_bind_silent; [apply writes_try_log_append|].
    eapply (writes_bind _ _ tt _ [_] [_]); [apply writes_res_writeHead|].
    apply writes_res_end.
Qed.

Lemma sends_sendError id code message statusCode :
  sends statusCode (error_envelope id code message)
    (sendError id (VNumber code) (VString message) statusCode).
Proof.
  unfold sends, sendError, makeJsonRpcError, JSON_stringify, error_envelope, envelope.
  destruct (too_deep stack_room _).
  - apply writes_bind_eval_throw. reflexivity.
  - eapply writes_bind_eval; [reflexivity|].
    eapply writes_bind_silent; [apply writes_try_log_append|].
    eapply (writes_bind _ _ tt _ [_] [_]); [apply writes_res_writeHead|].
    apply writes_res_end.
Qed.

Lemma sendResult_response id resultObj :
  serializes (result_envelope id resultObj) ->
  writes (sendResult id resultObj) (Normal tt)
    (json_response 200 (result_envelope id resultObj)).
Proof.
  intros H. pose proof (sends_sendResult id resultObj) as S.
  unfold sends in S. rewrite H in S. exact S.
Qed.

Lemma sendError_response id code message statusCode :
  serializes (error_envelope id code message) ->
  writes (sendError id (VNumber code) (VString message) statusCode) (Normal tt)
    (json_response statusCode (error_envelope id code message)).
Proof.
  intros H. pose proof (sends_sendError id code message statusCode) as S.
  unfold sends in S. rewrite H in S. exact S.
Qed.

(** *** Property reads *)

Lemma str_eqb_eq s t : str_eqb s t = true -> s = t.
Proof.
  revert t. induction s as [|a s IH]; intros [|b t]; cbn; try discriminate; auto.
  intros H. apply andb_prop in H as [Ha Hs].
  apply N.eqb_eq in Ha. f_equal; auto.
Qed.

Lemma str_eqb_refl s : str_eqb s s = true.
Proof. induction s as [|a s IH]; cbn; [reflexivity|]. rewrite N.eqb_refl. exact IH. Qed.

Lemma get_member v k x :
  get v k = Normal x -> forall k', get v k' = Normal (member v k').
Proof.
  intros H k'. unfold member.
  destruct v; cbn in *; try discriminate; reflexivity.
Qed.

Lemma get_throws v k e :
  get v k = Throw e -> e = TypeError /\ forall k', get v k' = Throw TypeError.
Proof. destruct v; cbn; intros H; try discriminate; injection H as <-; auto. Qed.

Lemma get_opt_normal v k : get_opt v k = Normal (member v k).
Proof. unfold member. destruct v; reflexivity. Qed.

Lemma get_truthy v k : ToBoolean v = true -> get v k = Normal (member v k).
Proof. unfold member. destruct v; cbn; try discriminate; reflexivity. Qed.

Lemma or_else_object_truthy v : ToBoolean (or_else v (VObject [])) = true.
Proof. unfold or_else. destruct (ToBoolean v) eqn:E; auto. Qed.

Lemma request_id_nullish parsed :
  nullish (member parsed (lit "id")) VNull = request_id parsed.
Proof.
  unfold member, request_id.
  destruct parsed; cbn; try reflexivity.
  destruct (own props _) as [[]|]; reflexivity.
Qed.

Lemma str_eqb_sym s t : str_eqb s t = str_eqb t s.
Proof.
  revert t. induction s as [|a s IH]; intros [|b t]; cbn; try reflexivity.
  rewrite N.eqb_sym, IH. reflexivity.
Qed.

Lemma member_of_get v k x : get v k = Normal x -> member v k = x.
Proof. intros H. unfold member. rewrite H. reflexivity. Qed.

Lemma request_id_defined parsed : request_id parsed <> VUndefined.
Proof.
  unfold request_id. destruct parsed; try discriminate.
  destruct (own props _) as [[]|]; discriminate.
Qed.

(** *** The serializer on shallow values *)

Lemma shallow_serializes v : (depth v <= 8)%nat -> serializes v.
Proof.
  intros H. unfold serializes, too_deep, stringify_depth_limit.
  apply Nat.ltb_ge. lia.
Qed.

Lemma depth_deeply_nested n : depth (deeply_nested n) = S n.
Proof. induction n as [|n IH]; [reflexivity|]. cbn [deeply_nested depth]. rewrite IH. lia. Qed.

Lemma deeper_than_limit v :
  (8 + stack_room < depth v)%nat -> too_deep stack_room v = true.
Proof. intros H. unfold too_deep, stringify_depth_limit. apply Nat.ltb_lt. exact H. Qed.

(** *** Steps that make no call on [res] *)

Lemma silent_ret {A} (a : A) : silent (ret a).
Proof. eexists. apply writes_ret. Qed.

Lemma silent_eval {A} (c : completion A) : silent (eval c).
Proof. eexists. apply writes_eval. Qed.

Lemma silent_bind {A B} (m : M A) (k : A -> M B) :
  silent m -> (forall a, silent (k a)) -> silent (bind m k).
Proof.
  intros [[a|e] Hm] Hk.
  - destruct (Hk a) as [c Hc]. exists c.
    change (@nil res_call) with (@nil res_call ++ []). eapply writes_bind; eauto.
  - exists (Throw e). apply writes_bind_throw, Hm.
Qed.

Lemma silent_or_elseM a b : silent b -> silent (or_elseM a b).
Proof. intros Hb. unfold or_elseM. destruct (ToBoolean a); [apply silent_ret | exact Hb]. Qed.

Create HintDb handlers.
#[local] Hint Resolve silent_ret silent_eval silent_or_elseM : handlers.
#[local] Hint Extern 2 (silent (bind _ _)) =>
  apply silent_bind; [ | intro ] : handlers.

(** The guarded [JSON.stringify] of the request: printed, or reported as
    unserializable. *)
Lemma writes_try_log_text (c : completion jsstring) label args' :
  writes (try_catch (text <- eval c ;; console_log [label; text])
                    (fun _ => console_log args')) (Normal tt) [].
Proof.
  intro st; unfold runs. destruct c; cbn; rewrite app_nil_r; auto.
Qed.

(** *** Handlers that answer with one envelope *)

Lemma answers_bind {A} id (m : M A) (k : A -> M unit) :
  silent m -> (forall a, answers id (k a)) -> answers id (bind m k).
Proof.
  intros [[a|e] Hm] Hk.
  - destruct (Hk a) as (r & calls & Hw & Hcase). exists r, calls. split; [|exact Hcase].
    change calls with ([] ++ calls). eapply writes_bind; eauto.
  - exists (Throw e), []. split; [apply writes_bind_throw, Hm|]. left. eauto.
Qed.

Lemma answers_of_sends id status payload m :
  sends status (envelope payload id) m -> answers id m.
Proof.
  unfold sends, answers. intros H.
  destruct (too_deep stack_room (envelope payload id)); do 2 eexists; (split; [exact H|]).
  - left. eauto.
  - right. eauto.
Qed.

Lemma answers_sendResult id resultObj : answers id (sendResult id resultObj).
Proof. eapply answers_of_sends. apply sends_sendResult. Qed.

Lemma answers_sendError id code message statusCode :
  answers id (sendError id (VNumber code) (VString message) statusCode).
Proof. eapply answers_of_sends. apply sends_sendError. Qed.

Lemma answers_tools_call parsed id : answers id (tools_call parsed id).
Proof.
  unfold tools_call.
  repeat (apply answers_bind; [auto 8 with handlers | intro]).
  destruct (negb _); [apply answers_sendError|].
  destruct (strict_eq_str _ _).
  - apply answers_bind; [auto with handlers | intro]. apply answers_sendResult.
  - apply answers_bind; [auto with handlers | intro]. apply answers_sendError.
Qed.

Lemma answers_route method id parsed : answers id (route method id parsed).
Proof.
  unfold route.
  repeat match goal with
         | |- answers _ (if ?c then _ else _) => destruct c
         end;
    lazymatch goal with
    | |- answers _ (sendResult _ _) => apply answers_sendResult
    | |- answers _ (sendError _ _ _ _) => apply answers_sendError
    | |- answers _ (tools_call _ _) => apply answers_tools_call
    end.
Qed.

(** *** The head of the 'end' callback *)

Lemma dispatch_prologue_throws parsed e :
  get parsed (lit "method") = Throw e ->
  writes (dispatch parsed) (Throw TypeError) [].
Proof.
  intros H. destruct (get_throws _ _ _ H) as [-> _].
  unfold dispatch. rewrite H. apply writes_bind_throw, writes_eval.
Qed.

Lemma log_object_eq parsed method :
  get parsed (lit "method") = Normal method ->
  VObject [(lit "method", method); (lit "id", request_id parsed);
           (lit "params", member parsed (lit "params"))] = log_object parsed.
Proof. intros H. unfold log_object. rewrite (member_of_get _ _ _ H). reflexivity. Qed.

Ltac dispatch_head H :=
  unfold dispatch;
  rewrite H, !(get_member _ _ _ H);
  (eapply writes_bind_eval; [reflexivity|]);
  (eapply writes_bind_eval; [reflexivity|]);
  cbv zeta; rewrite request_id_nullish;
  (eapply writes_bind_silent; [apply writes_try_log_text|]);
  (eapply writes_bind_eval; [reflexivity|]);
  rewrite (log_object_eq _ _ H);
  unfold JSON_stringify.

Lemma writes_dispatch parsed method r calls :
  get parsed (lit "method") = Normal method ->
  serializes (log_object parsed) ->
  writes (route method (request_id parsed) parsed) r calls ->
  writes (dispatch parsed) r calls.
Proof.
  intros H Hs Hroute. dispatch_head H. rewrite Hs.
  eapply writes_bind_eval; [reflexivity|].
  eapply writes_bind_silent; [apply writes_console_log|].
  eapply writes_bind_silent; [apply writes_try_append|].
  exact Hroute.
Qed.

Lemma writes_dispatch_overflow parsed method :
  get parsed (lit "method") = Normal method ->
  too_deep stack_room (log_object parsed) = true ->
  writes (dispatch parsed) (Throw RangeError) [].
Proof.
  intros H Hs. dispatch_head H. rewrite Hs.
  apply writes_bind_eval_throw. reflexivity.
Qed.

(** Whatever the request, the callback throws before any call on [res] or
    sends exactly one envelope under the id of the request. *)
Lemma answers_dispatch parsed : answers (request_id parsed) (dispatch parsed).
Proof.
  destruct (get parsed (lit "method")) as [method|e] eqn:Hm.
  - destruct (too_deep stack_room (log_object parsed)) eqn:Hs.
    + exists (Throw RangeError), []. split; [eapply writes_dispatch_overflow; eauto|].
      left. eauto.
    + destruct (answers_route method (request_id parsed) parsed)
        as (r & calls & Hw & Hcase).
      exists r, calls. split; [|exact Hcase]. eapply writes_dispatch; eauto.
  - exists (Throw TypeError), []. split; [eapply dispatch_prologue_throws; eauto|].
    left. eauto.
Qed.

(** *** The dispatcher against the table of the specification *)

Lemma writes_or_elseM a b x :
  writes b (Normal x) [] -> writes (or_elseM a b) (Normal (or_else a x)) [].
Proof.
  intros Hb. unfold or_elseM, or_else.
  destruct (ToBoolean a); [apply writes_ret | exact Hb].
Qed.

(** The reads at the head of the [tools/call] branch give the tool name and
    the tool arguments. *)
Lemma writes_tool_name params :
  ToBoolean params = true ->
  writes
    (or_elseM (member params (lit "name"))
       (tool <- eval (get params (lit "tool")) ;;
        tname <- eval (get_opt tool (lit "name")) ;;
        ret (or_else tname VNull)))
    (Normal (or_else (member params (lit "name"))
               (or_else (member (member params (lit "tool")) (lit "name")) VNull)))
    [].
Proof.
  intros Hp. apply writes_or_elseM.
  eapply writes_bind_eval; [apply get_truthy, Hp|].
  eapply writes_bind_eval; [apply get_opt_normal|].
  apply writes_ret.
Qed.

Lemma writes_tool_arguments params :
  ToBoolean params = true ->
  writes
    (or_elseM (member params (lit "arguments"))
       (tool <- eval (get params (lit "tool")) ;;
        targs <- eval (get_opt tool (lit "arguments")) ;;
        ret (or_else targs (VObject []))))
    (Normal (or_else (member params (lit "arguments"))
               (or_else (member (member params (lit "tool")) (lit "arguments"))
                  (VObject []))))
    [].
Proof.
  intros Hp. apply writes_or_elseM.
  eapply writes_bind_eval; [apply get_truthy, Hp|].
  eapply writes_bind_eval; [apply get_opt_normal|].
  apply writes_ret.
Qed.

Lemma tool_arguments_truthy parsed : ToBoolean (tool_arguments parsed) = true.
Proof.
  unfold tool_arguments, or_else.
  destruct (ToBoolean (member (request_params parsed) (lit "arguments"))) eqn:E1;
    [exact E1|].
  destruct (ToBoolean (member (member _ (lit "tool")) (lit "arguments"))) eqn:E2;
    [exact E2 | reflexivity].
Qed.

(** The [tools/call] branch does what [tool_reply] says. *)
Lemma tools_call_reply parsed method id :
  get parsed (lit "method") = Normal method ->
  match tool_reply parsed with
  | Normal (status, payload) => sends status (envelope payload id) (tools_call parsed id)
  | Throw e => writes (tools_call parsed id) (Throw e) []
  end.
Proof.
  intros Hm.
  assert (Hp : ToBoolean (request_params parsed) = true)
    by apply or_else_object_truthy.
  assert (Hhead : forall r calls,
             writes
               (if negb (ToBoolean (tool_name parsed)) then
                  sendError id (VNumber (-32602)) (str "Missing tool name") 400
                else if strict_eq_str (tool_name parsed) (lit "echo") then
                  m <- eval (get (tool_arguments parsed) (lit "message")) ;;
                  sendResult id
                    (VObject [(lit "type", str "tool_result");
                              (lit "value",
                               VObject [(lit "output", or_else m (str ""))])])
                else
                  shown <- eval (ToString Number_toString (tool_name parsed)) ;;
                  sendError id (VNumber (-32000))
                    (VString (lit "Tool not found: " ++ shown)) 404) r calls ->
             writes (tools_call parsed id) r calls).
  { intros r calls H. unfold tools_call.
    eapply writes_bind_eval; [apply (get_member _ _ _ Hm)|].
    fold (request_params parsed).
    eapply writes_bind_eval; [apply get_truthy, Hp|].
    eapply writes_bind_silent; [apply writes_tool_name, Hp|].
    eapply writes_bind_eval; [apply get_truthy, Hp|].
    eapply writes_bind_silent; [apply writes_tool_arguments, Hp|].
    exact H. }
  unfold tool_reply.
  destruct (negb (ToBoolean (tool_name parsed))) eqn:En.
  - unfold sends. apply Hhead. rewrite ?En.
    apply (sends_sendError id (-32602) (lit "Missing tool name") 400).
  - destruct (strict_eq_str (tool_name parsed) (lit "echo")) eqn:Ee.
    + unfold sends. apply Hhead. rewrite ?En, ?Ee.
      eapply writes_bind_eval; [apply get_truthy, tool_arguments_truthy|].
      apply (sends_sendResult id).
    + destruct (ToString Number_toString (tool_name parsed)) as [shown|e] eqn:Es;
        cbn [cbind].
      * unfold sends. apply Hhead. rewrite ?En, ?Ee, ?Es.
        eapply writes_bind_eval; [reflexivity|].
        apply (sends_sendError id (-32000) (lit "Tool not found: " ++ shown) 404).
      * apply Hhead. rewrite ?En, ?Ee, ?Es.
        apply writes_bind_eval_throw. reflexivity.
Qed.

(** The chain of tests, read as a lookup in the table of fixed answers. *)
Lemma route_by_table m id parsed :
  route (VString m) id parsed =
  match own static_methods m with
  | Some result => sendResult id result
  | None =>
      if str_eqb m (lit "tools/call") || str_eqb m (lit "callTool")
      then tools_call parsed id
      else sendError id (VNumber (-32601)) (str "Method not found") 404
  end.
Proof.
  cbn [own static_methods].
  repeat match goal with
         | |- context [if str_eqb ?k m then Some _ else _] =>
             let E := fresh "E" in
             destruct (str_eqb k m) eqn:E;
             [apply str_eqb_eq in E; subst m; reflexivity
             | rewrite str_eqb_sym in E]
         end.
  unfold route, strict_eq_str. cbn [existsb acceptedNoopMethods].
  repeat match goal with E : str_eqb m _ = false |- _ => rewrite E; clear E end.
  cbn [orb]. destruct (str_eqb m (lit "tools/call") || str_eqb m (lit "callTool"));
    reflexivity.
Qed.

Lemma unknown_method_route method id parsed :
  existsb (strict_eq_str method) known_methods = false ->
  route method id parsed =
  sendError id (VNumber (-32601)) (str "Method not found") 404.
Proof.
  intros H. cbn [existsb known_methods] in H.
  repeat (apply orb_false_elim in H; destruct H as [? H]).
  unfold route. cbn [existsb acceptedNoopMethods].
  repeat match goal with E : strict_eq_str method _ = false |- _ => rewrite E; clear E end.
  reflexivity.
Qed.

(** The chain of tests does what [reply] says: it sends the reply under the
    id of the request, or throws what the conversion of the tool name
    throws. *)
Lemma route_reply parsed method :
  get parsed (lit "method") = Normal method ->
  match reply parsed with
  | Normal (status, payload) =>
      sends status (envelope payload (request_id parsed))
        (route method (request_id parsed) parsed)
  | Throw e => writes (route method (request_id parsed) parsed) (Throw e) []
  end.
Proof.
  intros Hm. unfold reply. rewrite (member_of_get _ _ _ Hm).
  destruct method as [| | | |m| |];
    try (rewrite unknown_method_route by reflexivity;
         apply (sends_sendError _ (-32601) (lit "Method not found") 404)).
  rewrite route_by_table.
  destruct (own static_methods m) as [result|]; [apply sends_sendResult|].
  destruct (str_eqb m (lit "tools/call") || str_eqb m (lit "callTool")).
  - apply (tools_call_reply parsed (VString m) (request_id parsed) Hm).
  - apply (sends_sendError _ (-32601) (lit "Method not found") 404).
Qed.

(** The dispatcher refines the table: on a parsed body other than [null]
    whose log line serialises, it sends the reply of the table when the
    envelope serialises, and throws the RangeError without any call on [res]
    when it does not. *)
Lemma dispatch_reply parsed method status payload :
  get parsed (lit "method") = Normal method ->
  serializes (log_object parsed) ->
  reply parsed = Normal (status, payload) ->
  sends status (envelope payload (request_id parsed)) (dispatch parsed).
Proof.
  intros Hm Hs Hr. pose proof (route_reply parsed method Hm) as H.
  rewrite Hr in H. unfold sends in *.
  eapply writes_dispatch; eauto.
Qed.

(** *** The 'end' callback *)

Lemma on_end_parsed st parsed r calls :
  JSON_parse (body st) = Normal parsed ->
  writes (dispatch parsed) r calls ->
  runs st on_end r calls.
Proof.
  intros H W. specialize (W st).
  unfold runs, on_end, bind, get_body in *. cbn. rewrite H. exact W.
Qed.

Lemma run_callback_throw st m e calls :
  runs st m (Throw e) calls ->
  uncaught (run_callback m st) = Some e /\
  res_calls (run_callback m st) = res_calls st ++ calls.
Proof.
  intros (Hr & Hc & _). unfold run_callback.
  destruct (m st) as [[[]|e'] st']; cbn in *; [discriminate|].
  injection Hr as ->. auto.
Qed.

Lemma run_callback_normal st m calls :
  runs st m (Normal tt) calls ->
  res_calls (run_callback m st) = res_calls st ++ calls /\
  conn_part (run_callback m st) = conn_part st.
Proof.
  intros (Hr & Hc & Hp). unfold run_callback.
  destruct (m st) as [[[]|e'] st']; cbn in *; [auto | discriminate].
Qed.

Lemma parse_error_envelope_serializes :
  serializes (error_envelope VNull (-32700) (lit "Parse error")).
Proof. apply shallow_serializes. cbn. lia. Qed.

Lemma on_end_parse_error st e :
  JSON_parse (body st) = Throw e ->
  runs st on_end (Normal tt)
    (json_response 400 (error_envelope VNull (-32700) (lit "Parse error"))).
Proof.
  intros H.
  assert (W : writes
                (res_writeHead 400 json_headers ;;
                 text <- eval (makeJsonRpcError VNull (VNumber (-32700))
                                 (str "Parse error")) ;;
                 res_end (Some text))
                (Normal tt)
                (json_response 400
                   (error_envelope VNull (-32700) (lit "Parse error")))).
  { eapply (writes_bind _ _ tt _ [_] [_]); [apply writes_res_writeHead|].
    eapply writes_bind_eval; [|apply writes_res_end].
    unfold makeJsonRpcError, JSON_stringify.
    change (VObject _) with (error_envelope VNull (-32700) (lit "Parse error")).
    rewrite parse_error_envelope_serializes. reflexivity. }
  specialize (W st). unfold runs, on_end, bind, get_body in *. cbn.
  rewrite H. exact W.
Qed.

(** C3. When [JSON.parse] throws on the body, the 'end' callback answers with
    status 400 and the error envelope of code -32700, message "Parse error"
    and id [null], and makes no other call on the response. *)
Theorem C3_unparseable_body_gets_parse_error st e :
  JSON_parse (body st) = Throw e ->
  runs st on_end (Normal tt)
    (json_response 400 (error_envelope VNull (-32700) (lit "Parse error"))).
Proof. apply on_end_parse_error. Qed.

(** C10. A body that parses to a number, a string, a boolean or an array is
    no parse error: its [method] reads as [undefined], and the answer is
    status 404 with error -32601 "Method not found" (and id [null]). *)
Theorem C10_scalar_or_array_body_is_method_not_found st parsed :
  JSON_parse (body st) = Normal parsed ->
  scalar_or_array parsed = true ->
  get parsed (lit "method") = Normal VUndefined /\
  runs st on_end (Normal tt)
    (json_response 404 (error_envelope VNull (-32601) (lit "Method not found"))).
Proof.
  intros Hp Hs.
  assert (Hm : get parsed (lit "method") = Normal VUndefined)
    by (destruct parsed; try discriminate; reflexivity).
  split; [exact Hm|].
  eapply on_end_parsed; [exact Hp|].
  eapply writes_dispatch; [exact Hm| |].
  - apply shallow_serializes. destruct parsed; try discriminate; cbn; lia.
  - rewrite unknown_method_route by reflexivity.
    replace (request_id parsed) with VNull
      by (destruct parsed; try discriminate; reflexivity).
    apply sendError_response. apply shallow_serializes. cbn. lia.
Qed.

Lemma log_object_depth_params parsed :
  (S (depth (member parsed (lit "params"))) <= depth (log_object parsed))%nat.
Proof. unfold log_object. cbn [depth]. lia. Qed.

Lemma log_object_depth_id parsed :
  (S (depth (request_id parsed)) <= depth (log_object parsed))%nat.
Proof. unfold log_object. cbn [depth]. lia. Qed.

(** C5. The request [{"method":"unknown-thing","id":5,"params":[[...]]}],
    whose params nest deeper than [JSON.stringify] can follow, names no known
    method, yet gets no "Method not found": the unguarded [JSON.stringify] of
    the log line throws a RangeError, no call is made on the response and the
    exception leaves the callback uncaught. *)
Theorem C5_deep_params_throw st :
  JSON_parse (body st) = Normal unknown_method_deep_params ->
  get unknown_method_deep_params (lit "method") = Normal (str "unknown-thing") /\
  existsb (strict_eq_str (str "unknown-thing")) known_methods = false /\
  runs st on_end (Throw RangeError) [] /\
  uncaught (run_callback on_end st) = Some RangeError /\
  res_calls (run_callback on_end st) = res_calls st.
Proof.
  intros Hp.
  assert (H : runs st on_end (Throw RangeError) []).
  { eapply on_end_parsed; [exact Hp|].
    eapply writes_dispatch_overflow; [reflexivity|].
    apply deeper_than_limit.
    pose proof (log_object_depth_params unknown_method_deep_params) as Hd.
    change (member unknown_method_deep_params (lit "params"))
      with (deeply_nested (8 + stack_room)) in Hd.
    rewrite depth_deeply_nested in Hd. lia. }
  split; [reflexivity|]. split; [reflexivity|]. split; [exact H|].
  destruct (run_callback_throw _ _ _ _ H) as [Hu Hc].
  rewrite app_nil_r in Hc. auto.
Qed.

(** C9. The request [{"method":"tools/call","id":[[...]],"params":{"name":""}}],
    whose id nests deeper than [JSON.stringify] can follow, has a falsy tool
    name, yet gets no "Missing tool name": the unguarded [JSON.stringify] of
    the log line throws a RangeError before the tool call is looked at, no
    call is made on the response and the exception leaves the callback
    uncaught. *)
Theorem C9_deep_id_throws st :
  JSON_parse (body st) = Normal empty_tool_name_deep_id ->
  get empty_tool_name_deep_id (lit "method") = Normal (str "tools/call") /\
  ToBoolean (member (request_params empty_tool_name_deep_id) (lit "name")) = false /\
  ToBoolean (member (member (request_params empty_tool_name_deep_id) (lit "tool"))
               (lit "name")) = false /\
  runs st on_end (Throw RangeError) [] /\
  uncaught (run_callback on_end st) = Some RangeError /\
  res_calls (run_callback on_end st) = res_calls st.
Proof.
  intros Hp.
  assert (H : runs st on_end (Throw RangeError) []).
  { eapply on_end_parsed; [exact Hp|].
    eapply writes_dispatch_overflow; [reflexivity|].
    apply deeper_than_limit.
    pose proof (log_object_depth_id empty_tool_name_deep_id) as Hd.
    change (request_id empty_tool_name_deep_id)
      with (deeply_nested (8 + stack_room)) in Hd.
    rewrite depth_deeply_nested in Hd. lia. }
  split; [reflexivity|]. split; [reflexivity|]. split; [reflexivity|].
  split; [exact H|].
  destruct (run_callback_throw _ _ _ _ H) as [Hu Hc].
  rewrite app_nil_r in Hc. auto.
Qed.

(** C6. The body [null] parses, and the 'end' callback then throws a
    TypeError at [parsed.method]: no call is made on the response and the
    exception leaves the callback uncaught. *)
Theorem C6_null_body_throws st :
  JSON_parse (body st) = Normal VNull ->
  runs st on_end (Throw TypeError) [] /\
  uncaught (run_callback on_end st) = Some TypeError /\
  res_calls (run_callback on_end st) = res_calls st.
Proof.
  intros Hp.
  assert (H : runs st on_end (Throw TypeError) []).
  { eapply on_end_parsed; [exact Hp|].
    eapply dispatch_prologue_throws. reflexivity. }
  split; [exact H|].
  destruct (run_callback_throw _ _ _ _ H) as [Hu Hc].
  rewrite app_nil_r in Hc. auto.
Qed.

(** C1. The request
    [{"jsonrpc":"2.0","method":"tools/call","id":1,"params":{"name":{"toString":1}}}]
    names a tool other than "echo", yet gets no "Tool not found" answer:
    building the message converts the name to a string, which throws a
    TypeError; no call is made on the response and the exception leaves the
    callback uncaught. *)
Theorem C1_object_tool_name_throws st :
  JSON_parse (body st) = Normal tool_named_by_object ->
  ToBoolean (tool_name tool_named_by_object) = true /\
  strict_eq_str (tool_name tool_named_by_object) (lit "echo") = false /\
  runs st on_end (Throw TypeError) [] /\
  uncaught (run_callback on_end st) = Some TypeError /\
  res_calls (run_callback on_end st) = res_calls st.
Proof.
  intros Hp.
  assert (H : runs st on_end (Throw TypeError) []).
  { eapply on_end_parsed; [exact Hp|].
    eapply writes_dispatch; [reflexivity| |].
    - apply shallow_serializes. cbn. lia.
    - exact (route_reply tool_named_by_object (str "tools/call") eq_refl). }
  split; [reflexivity|]. split; [reflexivity|]. split; [exact H|].
  destruct (run_callback_throw _ _ _ _ H) as [Hu Hc].
  rewrite app_nil_r in Hc. auto.
Qed.

(** *** The id in the envelope *)

Lemma Serialize_defined v :
  v <> VUndefined ->
  SerializeJSONProperty Number_toString v = Some (JSON_text Number_toString v).
Proof.
  intros H. unfold JSON_text.
  destruct (SerializeJSONProperty Number_toString v) eqn:E; [reflexivity|].
  destruct v as [| |[]| | | |]; try discriminate. contradiction.
Qed.

Lemma envelope_text_eq key payload id :
  payload <> VUndefined ->
  id <> VUndefined ->
  JSON_text Number_toString (envelope (key, payload) id) =
  envelope_text key (JSON_text Number_toString payload) (JSON_text Number_toString id).
Proof.
  intros Hp Hi. unfold JSON_text at 1, envelope, envelope_text.
  cbn [SerializeJSONProperty str].
  rewrite (Serialize_defined _ Hp), (Serialize_defined _ Hi).
  cbn [app]. rewrite <- !app_assoc. reflexivity.
Qed.

(** A number that is not finite is written [null]. *)
Lemma JSON_text_number f :
  JSON_text Number_toString (VNumber f) =
  if PrimFloat.is_finite f then Number_toString f else lit "null".
Proof. reflexivity. Qed.

Lemma static_results_defined m result :
  own static_methods m = Some result -> result <> VUndefined.
Proof.
  cbn [own static_methods].
  repeat match goal with
         | |- (if ?c then _ else _) = _ -> _ =>
             destruct c; [intros H; injection H as <-; discriminate|]
         end.
  discriminate.
Qed.

Lemma reply_payload_defined parsed status key payload :
  reply parsed = Normal (status, (key, payload)) -> payload <> VUndefined.
Proof.
  unfold reply, tool_reply, error_payload.
  destruct (member parsed (lit "method")) as [| | | |m| |];
    try (intros H; injection H as <- <- <-; discriminate).
  destruct (own static_methods m) as [result|] eqn:E.
  - intros H. injection H as <- <- <-. eapply static_results_defined, E.
  - destruct (_ || _); [|intros H; injection H as <- <- <-; discriminate].
    destruct (negb _); [intros H; injection H as <- <- <-; discriminate|].
    destruct (strict_eq_str _ _); [intros H; injection H as <- <- <-; discriminate|].
    destruct (ToString _ _); cbn [cbind]; [|discriminate].
    intros H; injection H as <- <- <-; discriminate.
Qed.

(** C2. When the body parses to something other than [null], the log line
    and the envelope serialise, and the table has an answer, the 'end'
    callback sends exactly that answer, success or error, in an envelope whose
    [id] is the text [JSON.stringify] gives for the request's [id] member
    ([null] when the request has none): the id is echoed as JavaScript holds
    it, so 0 and the empty string come back as they are, and a number that
    is not finite comes back as [null]. *)
Theorem C2_envelope_echoes_request_id st parsed method status key payload :
  JSON_parse (body st) = Normal parsed ->
  get parsed (lit "method") = Normal method ->
  reply parsed = Normal (status, (key, payload)) ->
  serializes (log_object parsed) ->
  serializes (envelope (key, payload) (request_id parsed)) ->
  runs st on_end (Normal tt)
    [WriteHead status json_headers;
     End (Some (envelope_text key (JSON_text Number_toString payload)
                  (JSON_text Number_toString (request_id parsed))))].
Proof.
  intros Hp Hm Hr Hl He.
  rewrite <- envelope_text_eq
    by (eauto using reply_payload_defined, request_id_defined).
  eapply on_end_parsed; [exact Hp|].
  pose proof (dispatch_reply parsed method status (key, payload) Hm Hl Hr) as H.
  unfold sends in H. rewrite He in H. exact H.
Qed.

(** *** The SSE route *)

Lemma div_mod_step e :
  (e mod 15000 = 14999 ->
   (e + 1) mod 15000 = 0 /\ (e + 1) / 15000 = e / 15000 + 1) /\
  (e mod 15000 <> 14999 ->
   (e + 1) mod 15000 = e mod 15000 + 1 /\ (e + 1) / 15000 = e / 15000).
Proof.
  pose proof (N.div_mod e 15000 ltac:(discriminate)) as Hdm.
  pose proof (N.mod_lt e 15000 ltac:(discriminate)) as Hlt.
  split; intros H.
  - assert (He : e + 1 = 15000 * (e / 15000 + 1) + 0) by lia.
    split; symmetry.
    + eapply N.mod_unique; [|exact He]. lia.
    + eapply N.div_unique; [|exact He]. lia.
  - assert (He : e + 1 = 15000 * (e / 15000) + (e mod 15000 + 1)) by lia.
    split; symmetry.
    + eapply N.mod_unique; [|exact He]. lia.
    + eapply N.div_unique; [|exact He]. lia.
Qed.

Lemma sse_stream_succ n : sse_stream (n + 1) = sse_stream n ++ [Write sse_ping_event].
Proof.
  unfold sse_stream. rewrite <- app_assoc. f_equal.
  replace (N.to_nat (n + 1)) with (N.to_nat n + 1)%nat by lia.
  rewrite repeat_app. reflexivity.
Qed.

Lemma tick_open e st : sse_open e st -> sse_open (e + 1) (tick st).
Proof.
  intros (Hu & Hl & Hi & Hc). unfold tick. rewrite Hi.
  pose proof (N.mod_lt e 15000 ltac:(discriminate)) as Hlt.
  destruct (div_mod_step e) as [Hwrap Hnext].
  destruct (15000 - e mod 15000 <=? 1) eqn:E.
  - apply N.leb_le in E.
    destruct Hwrap as [Hm Hd]; [lia|].
    unfold sse_open, run_callback, interval_callback, res_write, set_interval_field.
    cbn [uncaught listeners interval res_calls].
    rewrite Hm, Hd, sse_stream_succ, Hc, N.sub_0_r. auto.
  - apply N.leb_gt in E.
    destruct Hnext as [Hm Hd]; [lia|].
    unfold sse_open, set_interval_field.
    cbn [uncaught listeners interval res_calls]. rewrite Hm, Hd.
    repeat split; auto. f_equal. f_equal. lia.
Qed.

Lemma elapse_open ms : forall e st, sse_open e st -> sse_open (e + ms) (N.iter ms tick st).
Proof.
  induction ms as [|ms IH] using N.peano_ind; intros e st H.
  - rewrite N.add_0_r. exact H.
  - rewrite N.iter_succ. replace (e + N.succ ms) with (e + ms + 1) by lia.
    apply tick_open, IH, H.
Qed.

Lemma deliver_open e st ev :
  sse_open e st ->
  match ev with
  | EvClose => sse_closed (res_calls st) (deliver st ev)
  | EvElapse ms => sse_open (e + ms) (deliver st ev)
  | _ => deliver st ev = st
  end.
Proof.
  intros H. pose proof H as (Hu & Hl & Hi & Hc).
  unfold deliver, has_listener. rewrite Hu, Hl.
  destruct ev; cbn [existsb listener_eqb orb]; try reflexivity.
  - unfold sse_closed. cbn. auto.
  - apply elapse_open, H.
Qed.

Lemma events_open evs : forall e st,
  sse_open e st -> no_close evs = true ->
  sse_open (e + elapsed evs) (fold_left deliver evs st).
Proof.
  induction evs as [|ev evs IH]; intros e st H Hn; cbn [fold_left elapsed fold_right].
  - rewrite N.add_0_r. exact H.
  - cbn in Hn. pose proof (deliver_open e st ev H) as Hd.
    destruct ev; try discriminate.
    + rewrite Hd. apply IH; auto.
    + rewrite Hd. apply IH; auto.
    + fold (elapsed evs). rewrite N.add_assoc. apply IH; auto.
Qed.

Lemma tick_closed calls st : sse_closed calls st -> tick st = st.
Proof. intros (_ & _ & Hi & _). unfold tick. rewrite Hi. reflexivity. Qed.

Lemma deliver_closed calls st ev :
  sse_closed calls st -> sse_closed calls (deliver st ev).
Proof.
  intros H. pose proof H as (Hu & Hl & Hi & Hc).
  unfold deliver, has_listener. rewrite Hu, Hl.
  destruct ev; cbn [existsb listener_eqb orb]; try exact H.
  - unfold sse_closed. cbn. auto.
  - induction ms as [|ms IH] using N.peano_ind; [exact H|].
    rewrite N.iter_succ, (tick_closed calls); auto.
Qed.

Lemma events_closed calls evs : forall st,
  sse_closed calls st -> sse_closed calls (fold_left deliver evs st).
Proof.
  induction evs as [|ev evs IH]; intros st H; cbn [fold_left]; [exact H|].
  apply IH, deliver_closed, H.
Qed.

(** Before or after the 'close' event, the connection is in one of the two
    shapes. *)
Lemma events_sse evs : forall e st,
  sse_open e st ->
  (exists e', sse_open e' (fold_left deliver evs st)) \/
  (exists calls, sse_closed calls (fold_left deliver evs st)).
Proof.
  induction evs as [|ev evs IH]; intros e st H; cbn [fold_left]; [left; eauto|].
  pose proof (deliver_open e st ev H) as Hd.
  destruct ev.
  - rewrite Hd. eauto.
  - rewrite Hd. eauto.
  - right. eexists. apply events_closed. exact Hd.
  - eauto.
Qed.

Lemma sse_request_opens faults req :
  str_eqb (req_method req) (lit "GET") = true ->
  str_eqb (req_url req) (lit "/sse") = true ->
  sse_open 0 (run_callback (requestListener req) (initial faults)).
Proof.
  intros Hm Hu. unfold requestListener. rewrite Hm, Hu.
  apply str_eqb_eq in Hu. rewrite Hu.
  unfold sse_open. cbn. auto.
Qed.

(** C7. On [GET /sse] the server writes the event-stream head and one
    [message] event carrying [{"status":"ok"}]; while the client stays
    connected it has written, [e] milliseconds later, exactly one [ping]
    event (data [{}]) for each full period of 15000 ms; and from the 'close'
    event on, which clears the interval, nothing more is written, whatever
    time passes. *)
Theorem C7_sse_stream_and_close faults req :
  str_eqb (req_method req) (lit "GET") = true ->
  str_eqb (req_url req) (lit "/sse") = true ->
  res_calls (connection faults req []) =
    [WriteHead 200 sse_headers; Write sse_message_event] /\
  (forall evs,
     no_close evs = true ->
     res_calls (connection faults req evs) = sse_stream (elapsed evs / 15000) /\
     interval (connection faults req evs) <> None) /\
  (forall evs later,
     res_calls (connection faults req (evs ++ EvClose :: later)) =
       res_calls (connection faults req evs) /\
     interval (connection faults req (evs ++ EvClose :: later)) = None).
Proof.
  intros Hm Hu. pose proof (sse_request_opens faults req Hm Hu) as H0.
  unfold connection. split; [|split].
  - destruct H0 as (_ & _ & _ & Hc). exact Hc.
  - intros evs Hn. destruct (events_open evs 0 _ H0 Hn) as (_ & _ & Hi & Hc).
    rewrite N.add_0_l in Hc. split; [exact Hc|]. rewrite Hi. discriminate.
  - intros evs later. rewrite fold_left_app. cbn [fold_left].
    set (st := fold_left deliver evs _).
    assert (Hc : sse_closed (res_calls st) (deliver st EvClose)).
    { destruct (events_sse evs 0 _ H0) as [[e' Ho]|[calls Hcl]]; fold st in Ho || fold st in Hcl.
      - exact (deliver_open e' st EvClose Ho).
      - pose proof Hcl as (_ & _ & _ & <-). apply deliver_closed, Hcl. }
    destruct (events_closed _ later _ Hc) as (_ & _ & Hi & Hr). auto.
Qed.

(** *** The body of a POST request *)

Lemma run_callback_runs st (m : M unit) r calls :
  runs st m r calls ->
  res_calls (run_callback m st) = res_calls st ++ calls /\
  body (run_callback m st) = body st /\
  socket_destroyed (run_callback m st) = socket_destroyed st /\
  listeners (run_callback m st) = listeners st /\
  interval (run_callback m st) = interval st /\
  uncaught (run_callback m st) =
    match r with Normal _ => uncaught st | Throw e => Some e end.
Proof.
  intros (Hr & Hc & Hp). unfold run_callback, conn_part in *.
  destruct (m st) as [[[]|e] st']; cbn in *; subst r;
    injection Hp as H1 H2 H3 H4 H5; rewrite ?H1, ?H2, ?H3, ?H4, ?H5; auto 10.
Qed.

Lemma on_data_state chunk st :
  let st' := run_callback (on_data chunk) st in
  body st' = body st ++ Buffer_toString chunk /\
  socket_destroyed st' =
    (1000000 <? js_length (body st ++ Buffer_toString chunk)) || socket_destroyed st /\
  res_calls st' = res_calls st /\
  listeners st' = listeners st /\
  interval st' = interval st /\
  uncaught st' = uncaught st.
Proof.
  unfold run_callback, on_data, bind, get_body, set_body, req_socket_destroy, ret.
  cbn [fst snd body].
  destruct (1000000 <? js_length (body st ++ Buffer_toString chunk)); cbn; auto 10.
Qed.

Lemma post_request_starts faults req :
  str_eqb (req_method req) (lit "POST") = true ->
  let st := run_callback (requestListener req) (initial faults) in
  body st = [] /\ socket_destroyed st = false /\ res_calls st = [] /\
  listeners st = [OnData; OnEnd] /\ interval st = None /\ uncaught st = None.
Proof.
  intros Hm. apply str_eqb_eq in Hm. unfold requestListener. rewrite Hm.
  cbn. auto 10.
Qed.

Lemma data_events chunks : forall st,
  uncaught st = None ->
  has_listener OnData st = true ->
  let st' := fold_left deliver (map EvData chunks) st in
  body st' = body st ++ List.concat (map Buffer_toString chunks) /\
  uncaught st' = None /\
  listeners st' = listeners st /\
  res_calls st' = res_calls st /\
  (socket_destroyed st = true -> socket_destroyed st' = true) /\
  (chunks <> [] -> 1000000 < js_length (body st') -> socket_destroyed st' = true).
Proof.
  induction chunks as [|chunk chunks IH]; intros st Hu Hl; cbn [map fold_left List.concat].
  - rewrite app_nil_r. repeat split; auto; congruence.
  - assert (Hd : deliver st (EvData chunk) = run_callback (on_data chunk) st)
      by (unfold deliver; rewrite Hu, Hl; reflexivity).
    rewrite Hd.
    destruct (on_data_state chunk st) as (Hb & Hs & Hc & Hls & Hi & Hun).
    set (st1 := run_callback (on_data chunk) st) in *.
    destruct (IH st1) as (Hb' & Hu' & Hl' & Hc' & Hmono & Hover).
    { congruence. }
    { unfold has_listener in *. rewrite Hls. exact Hl. }
    cbv zeta in *. rewrite Hb', Hb, <- app_assoc.
    repeat split; try congruence.
    + intros Hdead. apply Hmono. rewrite Hs, Hdead. apply orb_true_r.
    + intros _ Hlen. destruct chunks as [|c chunks'].
      * cbn [map fold_left List.concat] in *. rewrite Hs.
        rewrite app_nil_r in Hlen. apply N.ltb_lt in Hlen. rewrite Hlen. reflexivity.
      * apply Hover; [discriminate|]. rewrite Hb', Hb, <- app_assoc. exact Hlen.
Qed.

(** Every run of the 'end' callback: it completes or throws, and leaves the
    connection as it was; the outcome depends on the state through the body
    only. *)
Lemma on_end_runs st :
  exists r calls, forall st', body st' = body st -> runs st' on_end r calls.
Proof.
  destruct (JSON_parse (body st)) as [parsed|e] eqn:Hp.
  - destruct (answers_dispatch parsed) as (r & calls & Hw & _).
    exists r, calls. intros st' Hb. rewrite <- Hb in Hp.
    eapply on_end_parsed; [exact Hp | exact Hw].
  - eexists _, _. intros st' Hb. rewrite <- Hb in Hp.
    eapply on_end_parse_error. exact Hp.
Qed.

Lemma tick_socket st : socket_destroyed (tick st) = socket_destroyed st.
Proof.
  unfold tick. destruct (interval st) as [[period remaining]|]; [|reflexivity].
  destruct (remaining <=? 1); reflexivity.
Qed.

Lemma elapse_socket ms st :
  socket_destroyed (N.iter ms tick st) = socket_destroyed st.
Proof.
  induction ms as [|ms IH] using N.peano_ind; [reflexivity|].
  rewrite N.iter_succ, tick_socket. exact IH.
Qed.

Lemma deliver_socket st ev :
  socket_destroyed st = true -> socket_destroyed (deliver st ev) = true.
Proof.
  intros H. unfold deliver. destruct (uncaught st); [exact H|].
  destruct ev.
  - destruct (has_listener OnData st); [|exact H].
    destruct (on_data_state chunk st) as (_ & Hs & _). rewrite Hs, H. apply orb_true_r.
  - destruct (has_listener OnEnd st); [|exact H].
    destruct (on_end_runs st) as (r & calls & Hr).
    destruct (run_callback_runs st on_end r calls (Hr st eq_refl))
      as (_ & _ & Hs & _).
    congruence.
  - destruct (has_listener OnClose st); [|exact H]. exact H.
  - rewrite elapse_socket. exact H.
Qed.

Lemma events_socket evs : forall st,
  socket_destroyed st = true -> socket_destroyed (fold_left deliver evs st) = true.
Proof.
  induction evs as [|ev evs IH]; intros st H; cbn [fold_left]; [exact H|].
  apply IH, deliver_socket, H.
Qed.

(** C4. A POST request whose accumulated body, decoded chunk by chunk into a
    string, is longer than 1,000,000 code units has its socket destroyed by
    the 'data' callback that sees the excess, and from then on nothing
    reaches the client, whatever events follow. *)
Theorem C4_body_over_limit_destroys_socket faults req chunks :
  str_eqb (req_method req) (lit "POST") = true ->
  1000000 < js_length (List.concat (map Buffer_toString chunks)) ->
  body (connection faults req (map EvData chunks)) =
    List.concat (map Buffer_toString chunks) /\
  socket_destroyed (connection faults req (map EvData chunks)) = true /\
  res_calls (connection faults req (map EvData chunks)) = [] /\
  forall later,
    client_view (connection faults req (map EvData chunks ++ later)) = [].
Proof.
  intros Hm Hlen. unfold connection.
  destruct (post_request_starts faults req Hm) as (Hb & Hs & Hc & Hl & Hi & Hu).
  set (st0 := run_callback (requestListener req) (initial faults)) in *.
  destruct (data_events chunks st0 Hu) as (Hb' & Hu' & Hl' & Hc' & _ & Hover).
  { unfold has_listener. rewrite Hl. reflexivity. }
  cbv zeta in *. rewrite Hb in Hb'. cbn [app] in Hb'.
  assert (Hdead : socket_destroyed (fold_left deliver (map EvData chunks) st0) = true).
  { apply Hover; [|rewrite Hb'; exact Hlen].
    intros ->. cbn in Hlen. discriminate. }
  repeat split; try congruence.
  intros later. rewrite fold_left_app. unfold client_view.
  rewrite events_socket by exact Hdead. reflexivity.
Qed.

(** *** Log writes and the client *)

Lemma low_fields s1 s2 :
  low_eq s1 s2 <->
  body s1 = body s2 /\ socket_destroyed s1 = socket_destroyed s2 /\
  listeners s1 = listeners s2 /\ interval s1 = interval s2 /\
  uncaught s1 = uncaught s2 /\ res_calls s1 = res_calls s2.
Proof.
  unfold low_eq, conn_part. split.
  - intros [H Hc]. injection H as H1 H2 H3 H4 H5. auto 10.
  - intros (H1 & H2 & H3 & H4 & H5 & Hc). rewrite H1, H2, H3, H4, H5. auto.
Qed.

Lemma run_callback_low s1 s2 (m : M unit) r calls :
  runs s1 m r calls -> runs s2 m r calls ->
  low_eq s1 s2 -> low_eq (run_callback m s1) (run_callback m s2).
Proof.
  intros R1 R2 L. apply low_fields in L as (H1 & H2 & H3 & H4 & H5 & Hc).
  destruct (run_callback_runs _ _ _ _ R1) as (A1 & A2 & A3 & A4 & A5 & A6).
  destruct (run_callback_runs _ _ _ _ R2) as (B1 & B2 & B3 & B4 & B5 & B6).
  apply low_fields. rewrite A1, A2, A3, A4, A5, A6, B1, B2, B3, B4, B5, B6.
  rewrite H1, H2, H3, H4, H5, Hc. auto 10.
Qed.

Lemma on_data_low s1 s2 chunk :
  low_eq s1 s2 ->
  low_eq (run_callback (on_data chunk) s1) (run_callback (on_data chunk) s2).
Proof.
  intros L. apply low_fields in L as (H1 & H2 & H3 & H4 & H5 & Hc).
  destruct (on_data_state chunk s1) as (A1 & A2 & A3 & A4 & A5 & A6).
  destruct (on_data_state chunk s2) as (B1 & B2 & B3 & B4 & B5 & B6).
  apply low_fields. cbv zeta in *.
  rewrite A1, A2, A3, A4, A5, A6, B1, B2, B3, B4, B5, B6.
  rewrite H1, H2, H3, H4, H5, Hc. auto 10.
Qed.

Lemma on_end_low s1 s2 :
  low_eq s1 s2 -> low_eq (run_callback on_end s1) (run_callback on_end s2).
Proof.
  intros L. pose proof L as Lf. apply low_fields in Lf as (H1 & _).
  destruct (on_end_runs s1) as (r & calls & Hr).
  apply (run_callback_low s1 s2 on_end r calls); auto.
Qed.

Lemma set_interval_low i s1 s2 :
  low_eq s1 s2 -> low_eq (set_interval_field i s1) (set_interval_field i s2).
Proof.
  intros L. apply low_fields in L as (H1 & H2 & H3 & H4 & H5 & Hc).
  apply low_fields. cbn. auto 10.
Qed.

Lemma tick_low s1 s2 : low_eq s1 s2 -> low_eq (tick s1) (tick s2).
Proof.
  intros L. pose proof L as Lf. apply low_fields in Lf as (_ & _ & _ & Hi & _).
  unfold tick. rewrite Hi.
  destruct (interval s2) as [[period remaining]|]; [|exact L].
  destruct (remaining <=? 1); [|apply set_interval_low, L].
  apply (set_interval_low (Some (period, period))) in L.
  apply low_fields in L as (H1 & H2 & H3 & H4 & H5 & Hc).
  apply low_fields. cbn in *. rewrite Hc. auto 10.
Qed.

Lemma elapse_low ms s1 s2 :
  low_eq s1 s2 -> low_eq (N.iter ms tick s1) (N.iter ms tick s2).
Proof.
  intros L. induction ms as [|ms IH] using N.peano_ind; [exact L|].
  rewrite !N.iter_succ. apply tick_low, IH.
Qed.

Lemma deliver_low s1 s2 ev :
  low_eq s1 s2 -> low_eq (deliver s1 ev) (deliver s2 ev).
Proof.
  intros L. pose proof L as Lf.
  apply low_fields in Lf as (_ & _ & Hl & _ & Hu & _).
  unfold deliver, has_listener. rewrite Hu, Hl.
  destruct (uncaught s2); [exact L|].
  destruct ev.
  - destruct (existsb _ _); [apply on_data_low, L | exact L].
  - destruct (existsb _ _); [apply on_end_low, L | exact L].
  - destruct (existsb _ _); [|exact L].
    apply (set_interval_low None), L.
  - apply elapse_low, L.
Qed.

Lemma events_low evs : forall s1 s2,
  low_eq s1 s2 -> low_eq (fold_left deliver evs s1) (fold_left deliver evs s2).
Proof.
  induction evs as [|ev evs IH]; intros s1 s2 L; cbn [fold_left]; [exact L|].
  apply IH, deliver_low, L.
Qed.

Lemma request_low faults1 faults2 req :
  low_eq (run_callback (requestListener req) (initial faults1))
         (run_callback (requestListener req) (initial faults2)).
Proof.
  apply low_fields. unfold requestListener.
  destruct (_ && _); [cbn; auto 10|].
  destruct (_ && _); [cbn; auto 10|].
  destruct (negb _); cbn; auto 10.
Qed.

(** C8. Two runs of the same connection, one request followed by the same
    events, that differ only in which appends to the log files fail, make the
    same calls on the response (status, headers and body), leave the socket
    in the same condition and end in the same way: what the client sees does
    not depend on the outcome of the log writes. *)
Theorem C8_log_failures_do_not_show faults1 faults2 req evs :
  client_view (connection faults1 req evs) = client_view (connection faults2 req evs) /\
  res_calls (connection faults1 req evs) = res_calls (connection faults2 req evs) /\
  socket_destroyed (connection faults1 req evs) =
    socket_destroyed (connection faults2 req evs) /\
  uncaught (connection faults1 req evs) = uncaught (connection faults2 req evs).
Proof.
  pose proof (events_low evs _ _ (request_low faults1 faults2 req)) as L.
  apply low_fields in L as (_ & Hs & _ & _ & Hu & Hc).
  unfold connection, client_view. rewrite Hs, Hc. auto.
Qed.

(** *** Beyond the dispatcher: routes, body, logs *)

(** The three routes of the request listener, as tests on the request. *)
Definition is_health (req : request) : bool :=
  str_eqb (req_method req) (lit "GET") && str_eqb (req_url req) (lit "/health").

Definition is_sse (req : request) : bool :=
  str_eqb (req_method req) (lit "GET") && str_eqb (req_url req) (lit "/sse").

Definition is_post (req : request) : bool :=
  str_eqb (req_method req) (lit "POST").

(** A connection on which no callback is registered and no timer runs. *)
Definition idle (st : state) : Prop :=
  listeners st = [] /\ interval st = None.

(** The bytes of a chunk are all ASCII. *)
Definition ascii_bytes (chunk : list Byte.byte) : Prop :=
  Forall (fun b => Byte.to_N b < 128) chunk.

(** *** Routes *)

Lemma tick_idle st : interval st = None -> tick st = st.
Proof. intros H. unfold tick. rewrite H. reflexivity. Qed.

Lemma deliver_idle st ev : idle st -> deliver st ev = st.
Proof.
  intros [Hl Hi]. unfold deliver, has_listener. rewrite Hl.
  destruct (uncaught st); [reflexivity|].
  destruct ev; cbn [existsb]; try reflexivity.
  induction ms as [|ms IH] using N.peano_ind; [reflexivity|].
  rewrite N.iter_succ, IH. apply tick_idle, Hi.
Qed.

Lemma events_idle evs st : idle st -> fold_left deliver evs st = st.
Proof.
  intros H. induction evs as [|ev evs IH]; cbn [fold_left]; [reflexivity|].
  rewrite deliver_idle by exact H. exact IH.
Qed.

(** The health check answers at once, registers nothing, logs nothing, and
    no later event on the connection changes anything. *)
Theorem health_route_is_stateless faults req evs :
  is_health req = true ->
  connection faults req evs = connection faults req [] /\
  res_calls (connection faults req evs) =
    [WriteHead 200 json_headers;
     End (Some (JSON_text Number_toString (VObject [(lit "status", str "ok")])))] /\
  idle (connection faults req evs) /\
  stdout (connection faults req evs) = [] /\
  files (connection faults req evs) = [] /\
  fs_faults (connection faults req evs) = faults /\
  uncaught (connection faults req evs) = None.
Proof.
  intros H. unfold is_health in H.
  assert (Hs : run_callback (requestListener req) (initial faults) =
               snd ((res_writeHead 200 json_headers ;;
                     res_end (Some (JSON_text Number_toString
                                      (VObject [(lit "status", str "ok")]))))
                      (initial faults))).
  { unfold requestListener. rewrite H. reflexivity. }
  assert (Hidle : idle (run_callback (requestListener req) (initial faults)))
    by (rewrite Hs; split; reflexivity).
  unfold connection. cbn [fold_left]. rewrite events_idle by exact Hidle.
  split; [reflexivity|]. rewrite Hs. cbn. unfold idle. cbn. auto 10.
Qed.

(** Every request that is neither a POST nor one of the two GET routes, a
    GET for any other URL included, gets status 405 with no headers and an
    empty body; nothing is registered or logged, and later events change
    nothing. *)
Theorem other_requests_get_405 faults req evs :
  is_health req = false ->
  is_sse req = false ->
  is_post req = false ->
  connection faults req evs = connection faults req [] /\
  res_calls (connection faults req evs) = [WriteHead 405 []; End None] /\
  idle (connection faults req evs) /\
  stdout (connection faults req evs) = [] /\
  files (connection faults req evs) = [] /\
  uncaught (connection faults req evs) = None.
Proof.
  intros Hh Hs Hp. unfold is_health, is_sse, is_post in *.
  assert (E : run_callback (requestListener req) (initial faults) =
              snd ((res_writeHead 405 [] ;; res_end None) (initial faults))).
  { unfold requestListener. rewrite Hh, Hs, Hp. reflexivity. }
  assert (Hidle : idle (run_callback (requestListener req) (initial faults)))
    by (rewrite E; split; reflexivity).
  unfold connection. cbn [fold_left]. rewrite events_idle by exact Hidle.
  split; [reflexivity|]. rewrite E. cbn. unfold idle. cbn. auto 10.
Qed.

(** A POST is handled the same way whatever its URL: the URLs of the two GET
    routes included, the body is read and dispatched. *)
Theorem post_ignores_the_url faults req1 req2 evs :
  is_post req1 = true ->
  is_post req2 = true ->
  connection faults req1 evs = connection faults req2 evs.
Proof.
  unfold is_post. intros H1 H2.
  apply str_eqb_eq in H1. apply str_eqb_eq in H2.
  unfold connection. f_equal. unfold requestListener. rewrite H1, H2. reflexivity.
Qed.

(** *** The body, chunk by chunk *)

Lemma js_length_app s t : js_length (s ++ t) = js_length s + js_length t.
Proof. unfold js_length. rewrite length_app. lia. Qed.

Lemma data_events_exact chunks : forall st,
  uncaught st = None ->
  has_listener OnData st = true ->
  socket_destroyed st = (1000000 <? js_length (body st)) ->
  let st' := fold_left deliver (map EvData chunks) st in
  body st' = body st ++ List.concat (map Buffer_toString chunks) /\
  socket_destroyed st' = (1000000 <? js_length (body st')) /\
  uncaught st' = None /\
  listeners st' = listeners st /\
  interval st' = interval st /\
  res_calls st' = res_calls st.
Proof.
  induction chunks as [|chunk chunks IH]; intros st Hu Hl Hs;
    cbn [map fold_left List.concat].
  - rewrite app_nil_r. auto 10.
  - assert (Hd : deliver st (EvData chunk) = run_callback (on_data chunk) st)
      by (unfold deliver; rewrite Hu, Hl; reflexivity).
    rewrite Hd.
    destruct (on_data_state chunk st) as (A1 & A2 & A3 & A4 & A5 & A6).
    set (st1 := run_callback (on_data chunk) st) in *. cbv zeta in *.
    destruct (IH st1) as (B1 & B2 & B3 & B4 & B5 & B6).
    { congruence. }
    { unfold has_listener in *. rewrite A4. exact Hl. }
    { rewrite A2, A1, Hs, js_length_app.
      destruct (1000000 <? js_length (body st)) eqn:E.
      - apply N.ltb_lt in E. rewrite orb_true_r. symmetry. apply N.ltb_lt. lia.
      - apply orb_false_r. }
    split; [rewrite B1, A1, <- app_assoc; reflexivity|].
    split; [exact B2|]. repeat split; congruence.
Qed.

Lemma post_body_state faults req chunks :
  is_post req = true ->
  body (connection faults req (map EvData chunks)) =
    List.concat (map Buffer_toString chunks) /\
  socket_destroyed (connection faults req (map EvData chunks)) =
    (1000000 <? js_length (List.concat (map Buffer_toString chunks))) /\
  res_calls (connection faults req (map EvData chunks)) = [] /\
  uncaught (connection faults req (map EvData chunks)) = None.
Proof.
  intros Hm. unfold connection.
  destruct (post_request_starts faults req Hm)
    as (Hb & Hs & Hc & Hl & Hi & Hu).
  set (st0 := run_callback (requestListener req) (initial faults)) in *.
  destruct (data_events_exact chunks st0 Hu) as (B1 & B2 & B3 & B4 & B5 & B6).
  { unfold has_listener. rewrite Hl. reflexivity. }
  { rewrite Hs, Hb. reflexivity. }
  cbv zeta in *. rewrite Hb in B1. cbn [app] in B1.
  rewrite B2, B1, B6, B3. auto.
Qed.

(** While the body of a POST streams in, the callback gathers the decoded
    chunks in order, and the socket is destroyed exactly when the text
    gathered so far is longer than 1,000,000 code units (a body of exactly
    1,000,000 is kept); it answers nothing and never throws. *)
Theorem body_guard_is_exact faults req chunks :
  is_post req = true ->
  body (connection faults req (map EvData chunks)) =
    List.concat (map Buffer_toString chunks) /\
  socket_destroyed (connection faults req (map EvData chunks)) =
    (1000000 <? js_length (List.concat (map Buffer_toString chunks))) /\
  res_calls (connection faults req (map EvData chunks)) = [] /\
  uncaught (connection faults req (map EvData chunks)) = None.
Proof. apply post_body_state. Qed.

(** The decoder gives at most one code unit per byte. *)
Lemma utf16_encode_length cp : (List.length (utf16_encode cp) <= 2)%nat.
Proof. unfold utf16_encode. destruct (cp <? 0x10000); cbn; lia. Qed.

Lemma utf8_lead_cases b :
  utf8_lead b = ([b], None) \/
  utf8_lead b = ([0xFFFD], None) \/
  exists p, utf8_lead b = ([], Some p).
Proof.
  unfold utf8_lead.
  destruct (b <=? 0x7F); [auto|].
  destruct (_ && _); [eauto|].
  destruct (_ && _); [eauto|].
  destruct (_ && _); [eauto|auto].
Qed.

Lemma utf8_decode_length bytes : forall p,
  (List.length (utf8_decode p bytes) <=
   List.length bytes + match p with Some _ => 1 | None => 0 end)%nat.
Proof.
  induction bytes as [|x rest IH]; intros p.
  - destruct p; cbn; lia.
  - assert (Hlead : (List.length (fst (utf8_lead (Byte.to_N x))
                                  ++ utf8_decode (snd (utf8_lead (Byte.to_N x))) rest)
                     <= S (List.length rest))%nat).
    { rewrite length_app.
      destruct (utf8_lead_cases (Byte.to_N x)) as [E|[E|[q E]]]; rewrite E;
        cbn [fst snd List.length].
      - pose proof (IH None) as H0. cbn beta iota in H0. lia.
      - pose proof (IH None) as H0. cbn beta iota in H0. lia.
      - pose proof (IH (Some q)) as H0. cbn beta iota in H0. lia. }
    cbn [utf8_decode]. cbv zeta. cbn [List.length].
    destruct p as [st|]; [|lia].
    destruct (_ && _).
    + destruct (needed st =? 1).
      * rewrite length_app.
        pose proof (utf16_encode_length
                      (N.lor (N.shiftl (code_point st) 6) (N.land (Byte.to_N x) 63))).
        pose proof (IH None) as H0. cbn beta iota in H0. lia.
      * match goal with
        | |- context [utf8_decode (Some ?s) rest] => pose proof (IH (Some s)) as H0
        end.
        cbn beta iota in H0. lia.
    + cbn [List.length]. lia.
Qed.

Lemma Buffer_toString_length chunk :
  js_length (Buffer_toString chunk) <= N.of_nat (List.length chunk).
Proof.
  unfold js_length, Buffer_toString.
  pose proof (utf8_decode_length chunk None) as H. cbn beta iota in H. lia.
Qed.

Lemma decoded_length chunks :
  js_length (List.concat (map Buffer_toString chunks)) <=
  N.of_nat (List.length (List.concat chunks)).
Proof.
  induction chunks as [|c chunks IH]; cbn [map List.concat]; [cbn; lia|].
  rewrite js_length_app, length_app.
  pose proof (Buffer_toString_length c). lia.
Qed.

(** A POST body of at most 1,000,000 bytes, however it is cut into chunks
    and whatever the bytes are, is never cut off. *)
Theorem body_within_byte_limit_is_kept faults req chunks :
  is_post req = true ->
  N.of_nat (List.length (List.concat chunks)) <= 1000000 ->
  socket_destroyed (connection faults req (map EvData chunks)) = false.
Proof.
  intros Hm Hlen.
  destruct (post_body_state faults req chunks Hm) as (_ & Hs & _).
  rewrite Hs. apply N.ltb_ge.
  pose proof (decoded_length chunks). lia.
Qed.

Lemma decode_ascii chunk :
  ascii_bytes chunk -> Buffer_toString chunk = map Byte.to_N chunk.
Proof.
  unfold Buffer_toString. induction 1 as [|x rest Hx _ IH]; [reflexivity|].
  cbn [utf8_decode map]. cbv zeta. unfold utf8_lead.
  replace (Byte.to_N x <=? 0x7F) with true by (symmetry; apply N.leb_le; lia).
  cbn [fst snd app]. rewrite IH. reflexivity.
Qed.

(** For ASCII bodies the gathered text is the bytes received, one code unit
    per byte: where the chunks are cut makes no difference. *)
Theorem ascii_body_is_chunking_independent faults req chunks :
  is_post req = true ->
  Forall ascii_bytes chunks ->
  body (connection faults req (map EvData chunks)) =
    map Byte.to_N (List.concat chunks).
Proof.
  intros Hm Ha.
  destruct (post_body_state faults req chunks Hm) as (Hb & _).
  rewrite Hb. clear Hb.
  induction Ha as [|c chunks Hc _ IH]; [reflexivity|].
  cbn [map List.concat]. rewrite map_app, IH, decode_ascii by exact Hc. reflexivity.
Qed.

(** *** The methods with a fixed answer *)

Lemma on_end_sends st parsed method status payload :
  JSON_parse (body st) = Normal parsed ->
  get parsed (lit "method") = Normal method ->
  serializes (log_object parsed) ->
  sends status (envelope payload (request_id parsed))
    (route method (request_id parsed) parsed) ->
  serializes (envelope payload (request_id parsed)) ->
  runs st on_end (Normal tt)
    (json_response status (envelope payload (request_id parsed))).
Proof.
  intros Hp Hm Hl Hs He. unfold sends in Hs. rewrite He in Hs.
  eapply on_end_parsed; [exact Hp|]. eapply writes_dispatch; eauto.
Qed.

(** A request whose method is one of the thirteen names with a fixed answer,
    and whose log line and envelope [JSON.stringify] accepts, gets status 200
    and that answer under its id, whatever else its id and its params are. *)
Theorem static_method_answer st parsed m result :
  JSON_parse (body st) = Normal parsed ->
  get parsed (lit "method") = Normal (VString m) ->
  own static_methods m = Some result ->
  serializes (log_object parsed) ->
  serializes (result_envelope (request_id parsed) result) ->
  runs st on_end (Normal tt)
    (json_response 200 (result_envelope (request_id parsed) result)).
Proof.
  intros Hp Hm Hr Hl He.
  apply (on_end_sends st parsed (VString m) 200 (lit "result", result) Hp Hm Hl);
    [|exact He].
  rewrite route_by_table, Hr. apply sends_sendResult.
Qed.

(** The method is compared with [===] against the known names: a request
    that parses to something other than [null] and whose method is none of
    them (an unknown name, no method at all, or a method that is not a
    string, such as the array [["ping"]]) gets -32601 "Method not found" with
    status 404 under its id, provided [JSON.stringify] accepts its log line
    and the envelope. *)
Theorem unknown_method_answer st parsed method :
  JSON_parse (body st) = Normal parsed ->
  get parsed (lit "method") = Normal method ->
  existsb (strict_eq_str method) known_methods = false ->
  serializes (log_object parsed) ->
  serializes (error_envelope (request_id parsed) (-32601) (lit "Method not found")) ->
  runs st on_end (Normal tt)
    (json_response 404
       (error_envelope (request_id parsed) (-32601) (lit "Method not found"))).
Proof.
  intros Hp Hm Hk Hl He.
  apply (on_end_sends st parsed method 404
           (error_payload (-32601) (lit "Method not found")) Hp Hm Hl);
    [|exact He].
  rewrite unknown_method_route by exact Hk.
  apply (sends_sendError _ (-32601) (lit "Method not found") 404).
Qed.

(** *** The tool call, by tool name *)

Lemma route_tools_call method id parsed :
  strict_eq_str method (lit "tools/call") || strict_eq_str method (lit "callTool") = true ->
  route method id parsed = tools_call parsed id.
Proof.
  intros Hcall. destruct method as [| | | |s| |]; try discriminate.
  unfold strict_eq_str in Hcall.
  apply orb_prop in Hcall as [E|E]; apply str_eqb_eq in E; subst s; reflexivity.
Qed.

Lemma tool_call_sends st parsed method status payload :
  JSON_parse (body st) = Normal parsed ->
  get parsed (lit "method") = Normal method ->
  strict_eq_str method (lit "tools/call") || strict_eq_str method (lit "callTool") = true ->
  tool_reply parsed = Normal (status, payload) ->
  serializes (log_object parsed) ->
  serializes (envelope payload (request_id parsed)) ->
  runs st on_end (Normal tt)
    (json_response status (envelope payload (request_id parsed))).
Proof.
  intros Hp Hm Hcall Hr Hl He.
  apply (on_end_sends st parsed method status payload Hp Hm Hl); [|exact He].
  rewrite route_tools_call by exact Hcall.
  pose proof (tools_call_reply parsed method (request_id parsed) Hm) as H.
  rewrite Hr in H. exact H.
Qed.

(** A call of the tool "echo", named by [params.name] or by
    [params.tool.name], gets status 200 and a [tool_result] whose output is
    [arguments.message] as it was sent, of whatever type, when that is
    truthy, and the empty string when it is absent or falsy, provided
    [JSON.stringify] accepts the log line of the request and the envelope. *)
Theorem echo_tool_answer st parsed method :
  JSON_parse (body st) = Normal parsed ->
  get parsed (lit "method") = Normal method ->
  strict_eq_str method (lit "tools/call") || strict_eq_str method (lit "callTool") = true ->
  strict_eq_str (tool_name parsed) (lit "echo") = true ->
  serializes (log_object parsed) ->
  serializes
    (result_envelope (request_id parsed)
       (VObject
          [(lit "type", str "tool_result");
           (lit "value",
            VObject
              [(lit "output",
                or_else (member (tool_arguments parsed) (lit "message"))
                  (str ""))])])) ->
  runs st on_end (Normal tt)
    (json_response 200
       (result_envelope (request_id parsed)
          (VObject
             [(lit "type", str "tool_result");
              (lit "value",
               VObject
                 [(lit "output",
                   or_else (member (tool_arguments parsed) (lit "message"))
                     (str ""))])]))).
Proof.
  intros Hp Hm Hcall He Hl Henv.
  refine (tool_call_sends st parsed method 200 (lit "result", _) Hp Hm Hcall _ Hl Henv).
  unfold tool_reply. rewrite He.
  assert (Ht : ToBoolean (tool_name parsed) = true)
    by (destruct (tool_name parsed); cbn in He; try discriminate;
        destruct s; [discriminate | reflexivity]).
  rewrite Ht. reflexivity.
Qed.

(** A call whose tool name is a non-empty string other than "echo" gets
    status 404 and error -32000 with the message "Tool not found: " followed
    by the name, provided [JSON.stringify] accepts the log line of the request
    and the envelope. *)
Theorem unknown_tool_answer st parsed method name :
  JSON_parse (body st) = Normal parsed ->
  get parsed (lit "method") = Normal method ->
  strict_eq_str method (lit "tools/call") || strict_eq_str method (lit "callTool") = true ->
  tool_name parsed = VString name ->
  name <> [] ->
  str_eqb name (lit "echo") = false ->
  serializes (log_object parsed) ->
  serializes
    (error_envelope (request_id parsed) (-32000) (lit "Tool not found: " ++ name)) ->
  runs st on_end (Normal tt)
    (json_response 404
       (error_envelope (request_id parsed) (-32000)
          (lit "Tool not found: " ++ name))).
Proof.
  intros Hp Hm Hcall Hn Hne He Hl Henv.
  refine (tool_call_sends st parsed method 404
            (error_payload (-32000) (lit "Tool not found: " ++ name))
            Hp Hm Hcall _ Hl Henv).
  unfold tool_reply. rewrite Hn. cbn [strict_eq_str ToString cbind]. rewrite He.
  destruct name; [contradiction | reflexivity].
Qed.

(** A call whose [params.name] is falsy (the empty string, 0, [false],
    [null] or absent) and whose [params.tool.name] is falsy or absent too
    counts as naming no tool: it gets status 400 and error -32602 "Missing
    tool name", provided [JSON.stringify] accepts the log line of the request
    and the envelope. *)
Theorem missing_tool_name_answer st parsed method :
  JSON_parse (body st) = Normal parsed ->
  get parsed (lit "method") = Normal method ->
  strict_eq_str method (lit "tools/call") || strict_eq_str method (lit "callTool") = true ->
  ToBoolean (member (request_params parsed) (lit "name")) = false ->
  ToBoolean (member (member (request_params parsed) (lit "tool")) (lit "name")) = false ->
  serializes (log_object parsed) ->
  serializes (error_envelope (request_id parsed) (-32602) (lit "Missing tool name")) ->
  runs st on_end (Normal tt)
    (json_response 400
       (error_envelope (request_id parsed) (-32602) (lit "Missing tool name"))).
Proof.
  intros Hp Hm Hcall Hn Htn Hl Henv.
  refine (tool_call_sends st parsed method 400
            (error_payload (-32602) (lit "Missing tool name"))
            Hp Hm Hcall _ Hl Henv).
  unfold tool_reply, tool_name, or_else. rewrite Hn, Htn. reflexivity.
Qed.

(** *** What is logged *)

Definition requests_log : jsstring := lit "/tmp/mcp-mock-requests.log".
Definition responses_log : jsstring := lit "/tmp/mcp-mock-responses.log".

(** The line of the requests log for a parsed request. *)
Definition request_log_line (parsed : value) : jsstring :=
  JSON_text Number_toString (log_object parsed) ++ newline.

(** The first console line for a parsed request: its text, or the notice
    printed when [JSON.stringify] throws on it. *)
Definition incoming_line (parsed : value) : jsstring :=
  if too_deep stack_room parsed
  then join_spaces [lit "Incoming JSON-RPC request (unserializable)"]
  else join_spaces [lit "Incoming JSON-RPC request:"; JSON_text Number_toString parsed].

(** The two console lines printed for a parsed request. *)
Definition request_console_lines (parsed : value) : list jsstring :=
  [incoming_line parsed;
   join_spaces [lit "MCP mock received request:";
                JSON_text Number_toString (log_object parsed)]].

(** What one append adds to the files: nothing when it fails. *)
Definition appended (failed : bool) (path data : jsstring) : list (jsstring * jsstring) :=
  if failed then [] else [(path, data)].

(** [effect st m r calls out lines n]: started in [st], [m] completes with
    [r] after the calls [calls] on [res], the console lines [out], the
    appended [lines] and [n] attempts to append, and leaves the connection as
    it was. *)
Definition effect {A} (st : state) (m : M A) (r : completion A)
    (calls : list res_call) (out : list jsstring)
    (lines : list (jsstring * jsstring)) (n : nat) : Prop :=
  fst (m st) = r /\
  res_calls (snd (m st)) = res_calls st ++ calls /\
  stdout (snd (m st)) = stdout st ++ out /\
  files (snd (m st)) = files st ++ lines /\
  fs_faults (snd (m st)) = skipn n (fs_faults st) /\
  conn_part (snd (m st)) = conn_part st.

(** A step that leaves the state alone. *)
Definition stateless {A} (m : M A) : Prop := exists c, forall st, m st = (c, st).

(** [m] either throws without any effect, or sends one JSON response, prints
    it and tries to append it to the responses log. *)
Definition throws_or_sends (st : state) (m : M unit) : Prop :=
  (exists e, effect st m (Throw e) [] [] [] 0) \/
  (exists label status data,
     (label = lit "MCP mock response:" \/ label = lit "MCP mock error response:") /\
     effect st m (Normal tt)
       [WriteHead status json_headers; End (Some data)]
       [join_spaces [label; data]]
       (appended (hd false (fs_faults st)) responses_log (data ++ newline))
       1).

(** The logging at the head of the 'end' callback. *)
Definition log_request (parsed : value) : M unit :=
  try_catch
    (text <- eval (JSON_stringify Number_toString stack_room parsed) ;;
     console_log [lit "Incoming JSON-RPC request:"; text])
    (fun _ => console_log [lit "Incoming JSON-RPC request (unserializable)"]) ;;
  logLine <- eval (JSON_stringify Number_toString stack_room (log_object parsed)) ;;
  console_log [lit "MCP mock received request:"; logLine] ;;
  try_catch
    (fs_appendFileSync requests_log (logLine ++ newline))
    (fun _ => ret tt).

Lemma stateless_ret {A} (a : A) : stateless (ret a).
Proof. exists (Normal a). reflexivity. Qed.

Lemma stateless_eval {A} (c : completion A) : stateless (eval c).
Proof. exists c. reflexivity. Qed.

Lemma stateless_bind {A B} (m : M A) (k : A -> M B) :
  stateless m -> (forall a, stateless (k a)) -> stateless (bind m k).
Proof.
  intros [[a|e] Hm] Hk.
  - destruct (Hk a) as [c Hc]. exists c. intros st. unfold bind. rewrite Hm. apply Hc.
  - exists (Throw e). intros st. unfold bind. rewrite Hm. reflexivity.
Qed.

Lemma stateless_or_elseM a b : stateless b -> stateless (or_elseM a b).
Proof. intros Hb. unfold or_elseM. destruct (ToBoolean a); [apply stateless_ret | exact Hb]. Qed.

Create HintDb trail.
#[local] Hint Resolve stateless_ret stateless_eval stateless_or_elseM : trail.
#[local] Hint Extern 2 (stateless (bind _ _)) =>
  apply stateless_bind; [ | intro ] : trail.

Lemma throws_or_sends_bind {A} st (m : M A) (k : A -> M unit) :
  stateless m -> (forall a, throws_or_sends st (k a)) -> throws_or_sends st (bind m k).
Proof.
  intros [[a|e] Hm] Hk.
  - specialize (Hk a). unfold throws_or_sends, effect, bind in *.
    rewrite Hm. exact Hk.
  - left. exists e. unfold effect, bind. rewrite Hm. cbn. rewrite !app_nil_r. auto 10.
Qed.

(** After the serialisation of the envelope, sending prints, appends and
    answers. *)
Lemma send_effect st label status text :
  effect st
    (try_catch
       (console_log [label; text] ;;
        fs_appendFileSync (lit "/tmp/mcp-mock-responses.log") (text ++ newline))
       (fun _ => ret tt) ;;
     res_writeHead status json_headers ;;
     res_end (Some text))
    (Normal tt)
    [WriteHead status json_headers; End (Some text)]
    [join_spaces [label; text]]
    (appended (hd false (fs_faults st)) responses_log (text ++ newline))
    1.
Proof.
  unfold effect, bind, try_catch, console_log, fs_appendFileSync,
    res_writeHead, res_end, ret.
  cbn [fst snd fs_faults].
  destruct (fs_faults st) as [|[|] later]; cbn; rewrite <- ?app_assoc, ?app_nil_r; auto 10.
Qed.

Lemma throws_or_sends_serialized st (c : completion jsstring) label status :
  (label = lit "MCP mock response:" \/ label = lit "MCP mock error response:") ->
  throws_or_sends st
    (text <- eval c ;;
     try_catch
       (console_log [label; text] ;;
        fs_appendFileSync (lit "/tmp/mcp-mock-responses.log") (text ++ newline))
       (fun _ => ret tt) ;;
     res_writeHead status json_headers ;;
     res_end (Some text)).
Proof.
  intros Hl. destruct c as [text|e].
  - right. exists label, status, text. split; [exact Hl|].
    exact (send_effect st label status text).
  - left. exists e. unfold effect, bind, eval. cbn. rewrite !app_nil_r. auto 10.
Qed.

Lemma throws_or_sends_sendResult st id resultObj :
  throws_or_sends st (sendResult id resultObj).
Proof. apply throws_or_sends_serialized. left. reflexivity. Qed.

Lemma throws_or_sends_sendError st id code message statusCode :
  throws_or_sends st (sendError id code message statusCode).
Proof. apply throws_or_sends_serialized. right. reflexivity. Qed.

Lemma throws_or_sends_tools_call st parsed id :
  throws_or_sends st (tools_call parsed id).
Proof.
  unfold tools_call.
  repeat (apply throws_or_sends_bind; [auto 8 with trail | intro]).
  destruct (negb _); [apply throws_or_sends_sendError|].
  destruct (strict_eq_str _ _).
  - apply throws_or_sends_bind; [auto with trail | intro].
    apply throws_or_sends_sendResult.
  - apply throws_or_sends_bind; [auto with trail | intro].
    apply throws_or_sends_sendError.
Qed.

Lemma throws_or_sends_route st method id parsed :
  throws_or_sends st (route method id parsed).
Proof.
  unfold route.
  repeat match goal with
         | |- throws_or_sends _ (if ?c then _ else _) => destruct c
         end;
    lazymatch goal with
    | |- throws_or_sends _ (sendResult _ _) => apply throws_or_sends_sendResult
    | |- throws_or_sends _ (sendError _ _ _ _) => apply throws_or_sends_sendError
    | |- throws_or_sends _ (tools_call _ _) => apply throws_or_sends_tools_call
    end.
Qed.

Lemma log_request_effect st parsed :
  serializes (log_object parsed) ->
  effect st (log_request parsed) (Normal tt) [] (request_console_lines parsed)
    (appended (hd false (fs_faults st)) requests_log (request_log_line parsed)) 1.
Proof.
  intros Hs.
  unfold effect, log_request, request_console_lines, incoming_line, request_log_line,
    JSON_stringify.
  rewrite Hs.
  unfold bind, try_catch, eval, console_log, fs_appendFileSync, ret.
  destruct (too_deep stack_room parsed); cbn [fst snd fs_faults];
    destruct (fs_faults st) as [|[|] later]; cbn;
    rewrite <- ?app_assoc, ?app_nil_r; auto 10.
Qed.

Lemma log_request_overflow st parsed :
  too_deep stack_room (log_object parsed) = true ->
  effect st (log_request parsed) (Throw RangeError) [] [incoming_line parsed] [] 0.
Proof.
  intros Hs.
  unfold effect, log_request, incoming_line, JSON_stringify.
  rewrite Hs.
  unfold bind, try_catch, eval, console_log, ret.
  destruct (too_deep stack_room parsed); cbn; rewrite ?app_nil_r; auto 10.
Qed.

Lemma dispatch_unfold parsed method st :
  get parsed (lit "method") = Normal method ->
  dispatch parsed st =
  (log_request parsed ;; route method (request_id parsed) parsed) st.
Proof.
  intros H. unfold dispatch, log_request.
  rewrite <- (log_object_eq _ _ H), <- request_id_nullish.
  rewrite H, !(get_member _ _ _ H).
  unfold JSON_stringify, bind, try_catch, eval, console_log, fs_appendFileSync, ret.
  cbv zeta.
  destruct (too_deep stack_room parsed), (too_deep stack_room (VObject _));
    cbn [fst snd fs_faults]; try reflexivity;
    destruct (fs_faults st) as [|[|] later]; reflexivity.
Qed.

Lemma effect_bind {A B} st (m : M A) (k : A -> M B) a r c1 c2 o1 o2 l1 l2 n1 n2 :
  effect st m (Normal a) c1 o1 l1 n1 ->
  effect (snd (m st)) (k a) r c2 o2 l2 n2 ->
  effect st (bind m k) r (c1 ++ c2) (o1 ++ o2) (l1 ++ l2) (n2 + n1).
Proof.
  intros (Hr & Hc & Ho & Hf & Hn & Hp). unfold effect, bind.
  destruct (m st) as [[x|e] st']; cbn [fst snd] in *; [|discriminate].
  injection Hr as ->.
  intros (Hr' & Hc' & Ho' & Hf' & Hn' & Hp').
  rewrite Hr', Hc', Ho', Hf', Hn', Hp', Hc, Ho, Hf, Hn, Hp, !app_assoc, skipn_skipn.
  auto 10.
Qed.

Lemma effect_bind_throw {A B} st (m : M A) (k : A -> M B) e c o l n :
  effect st m (Throw e) c o l n -> effect st (bind m k) (Throw e) c o l n.
Proof.
  intros (Hr & H). unfold effect, bind.
  destruct (m st) as [[x|e'] st']; cbn [fst snd] in *; [discriminate|].
  injection Hr as ->. split; [reflexivity | exact H].
Qed.

Lemma on_end_dispatch st parsed :
  JSON_parse (body st) = Normal parsed ->
  on_end st = dispatch parsed st.
Proof. intros H. unfold on_end, bind, get_body. cbn. rewrite H. reflexivity. Qed.

Lemma hd_skipn_1 (l : list bool) : hd false (skipn 1 l) = nth 1 l false.
Proof. destruct l as [|a [|b l]]; reflexivity. Qed.

Lemma hd_nth_0 (l : list bool) : hd false l = nth 0 l false.
Proof. destruct l; reflexivity. Qed.

(** For every request that parses to something other than [null]: the first
    console line is the text of the request, or the notice "(unserializable)"
    when [JSON.stringify] throws on it. When the unguarded [JSON.stringify]
    of the log line throws, the callback throws that RangeError at once,
    with nothing more printed and no append tried. Otherwise the log line is
    printed and appended to the requests log; when the request is answered,
    the body sent to the client is printed too and then appended, with a
    newline, to the responses log. The two appends are tried in that order
    whatever the first one does, and a failed append loses its own line only.
    A request on which the callback throws later leaves its request line and
    no response line. *)
Theorem request_log_trail st parsed method :
  JSON_parse (body st) = Normal parsed ->
  get parsed (lit "method") = Normal method ->
  (too_deep stack_room (log_object parsed) = true /\
   effect st on_end (Throw RangeError) [] [incoming_line parsed] [] 0) \/
  (too_deep stack_room (log_object parsed) = false /\
   exists e,
     effect st on_end (Throw e) []
       (request_console_lines parsed)
       (appended (nth 0 (fs_faults st) false) requests_log (request_log_line parsed))
       1) \/
  (too_deep stack_room (log_object parsed) = false /\
   exists label status data,
     (label = lit "MCP mock response:" \/ label = lit "MCP mock error response:") /\
     effect st on_end (Normal tt)
       [WriteHead status json_headers; End (Some data)]
       (request_console_lines parsed ++ [join_spaces [label; data]])
       (appended (nth 0 (fs_faults st) false) requests_log (request_log_line parsed)
        ++ appended (nth 1 (fs_faults st) false) responses_log (data ++ newline))
       2).
Proof.
  intros Hp Hm.
  assert (Hon : forall r c o l n,
             effect st
               (log_request parsed ;; route method (request_id parsed) parsed)
               r c o l n ->
             effect st on_end r c o l n).
  { intros r c o l n H. unfold effect in *.
    rewrite (on_end_dispatch st parsed Hp), (dispatch_unfold parsed method st Hm).
    exact H. }
  destruct (too_deep stack_room (log_object parsed)) eqn:Hs.
  - left. split; [reflexivity|]. apply Hon.
    apply effect_bind_throw, log_request_overflow, Hs.
  - right. pose proof (log_request_effect st parsed Hs) as Hlog.
    rewrite hd_nth_0 in Hlog.
    assert (Hfaults : fs_faults (snd (log_request parsed st)) = skipn 1 (fs_faults st))
      by (destruct Hlog as (_ & _ & _ & _ & H & _); exact H).
    destruct (throws_or_sends_route (snd (log_request parsed st)) method
                (request_id parsed) parsed)
      as [[e He]|(label & status & data & Hl & Hsend)].
    + left. split; [reflexivity|]. exists e. apply Hon.
      pose proof (effect_bind st (log_request parsed)
                    (fun _ : unit => route method (request_id parsed) parsed)
                    tt _ _ _ _ _ _ _ _ _ Hlog He) as H.
      cbn [app Nat.add] in H. rewrite !app_nil_r in H. exact H.
    + right. split; [reflexivity|]. exists label, status, data.
      split; [exact Hl|]. apply Hon.
      rewrite Hfaults, hd_skipn_1 in Hsend.
      exact (effect_bind st (log_request parsed)
               (fun _ : unit => route method (request_id parsed) parsed)
               tt _ _ _ _ _ _ _ _ _ Hlog Hsend).
Qed.

(** A body that does not parse is answered with the parse error and leaves no
    trace: nothing is printed, and no append to either log is tried. *)
Theorem parse_error_is_not_logged st e :
  JSON_parse (body st) = Throw e ->
  effect st on_end (Normal tt)
    (json_response 400
       (error_envelope VNull (-32700) (lit "Parse error")))
    [] [] 0.
Proof.
  intros H. unfold effect, on_end, bind, get_body. cbn [fst snd body].
  rewrite H. unfold res_writeHead, res_end, eval, makeJsonRpcError, JSON_stringify.
  change (VObject _) with (error_envelope VNull (-32700) (lit "Parse error")).
  rewrite parse_error_envelope_serializes.
  cbn [fst snd res_calls stdout files fs_faults skipn].
  rewrite <- app_assoc, !app_nil_r. repeat split; reflexivity.
Qed.

(** *** The SSE stream under any events *)

Lemma sse_events_bounded evs : forall e st,
  (sse_open e st \/ exists n, n <= e / 15000 /\ sse_closed (sse_stream n) st) ->
  sse_open (e + elapsed evs) (fold_left deliver evs st) \/
  exists n, n <= (e + elapsed evs) / 15000 /\
            sse_closed (sse_stream n) (fold_left deliver evs st).
Proof.
  induction evs as [|ev evs IH]; intros e st H; cbn [fold_left].
  - cbn [elapsed fold_right]. rewrite N.add_0_r. exact H.
  - replace (e + elapsed (ev :: evs))
      with ((e + match ev with EvElapse ms => ms | _ => 0 end) + elapsed evs)
      by (destruct ev; cbn [elapsed fold_right]; fold (elapsed evs); lia).
    apply IH. destruct H as [Ho|(n & Hn & Hc)].
    + pose proof (deliver_open e st ev Ho) as Hd.
      destruct ev; rewrite ?N.add_0_r.
      * rewrite Hd. left. exact Ho.
      * rewrite Hd. left. exact Ho.
      * right. exists (e / 15000). split; [lia|].
        destruct Ho as (_ & _ & _ & Hcalls). rewrite <- Hcalls. exact Hd.
      * left. exact Hd.
    + right. exists n. split.
      * etransitivity; [exact Hn|]. apply N.Div0.div_le_mono. lia.
      * apply deliver_closed, Hc.
Qed.

(** Whatever happens on an SSE connection, closes and body events included,
    what was written is the head, the one [message] event and then only
    [ping] events, never more of them than full periods of 15000 ms have
    passed; the response is never ended and no callback throws. *)
Theorem sse_writes_only_due_pings faults req evs :
  is_sse req = true ->
  exists n,
    res_calls (connection faults req evs) = sse_stream n /\
    n <= elapsed evs / 15000 /\
    uncaught (connection faults req evs) = None.
Proof.
  intros H. unfold is_sse in H. apply andb_prop in H as [Hm Hu].
  pose proof (sse_request_opens faults req Hm Hu) as H0.
  unfold connection.
  destruct (sse_events_bounded evs 0 _ (or_introl H0)) as [Ho|(n & Hn & Hc)];
    rewrite N.add_0_l in *.
  - exists (elapsed evs / 15000). destruct Ho as (Hun & _ & _ & Hcalls).
    split; [exact Hcalls|]. split; [lia | exact Hun].
  - exists n. destruct Hc as (Hun & _ & _ & Hcalls). auto.
Qed.

(** *** A POST from the first chunk to the answer *)

Lemma on_end_outcome st parsed :
  JSON_parse (body st) = Normal parsed ->
  exists r calls,
    runs st on_end r calls /\
    (((exists e, r = Throw e) /\ calls = []) \/
     (r = Normal tt /\
      exists status payload,
        calls = json_response status (envelope payload (request_id parsed)))).
Proof.
  intros Hp. destruct (answers_dispatch parsed) as (r & calls & Hw & Hcase).
  exists r, calls. split; [|exact Hcase].
  eapply on_end_parsed; [exact Hp | exact Hw].
Qed.

(** A POST (to any URL) whose whole body, gathered from its chunks, is at
    most 1,000,000 code units long is answered at the end of the body, and
    the client sees that answer: the parse error when the text does not
    parse; otherwise one envelope under the request's id, or nothing at all
    when the callback threw. *)
Theorem post_within_limit_is_answered faults req chunks :
  is_post req = true ->
  js_length (List.concat (map Buffer_toString chunks)) <= 1000000 ->
  match JSON_parse (List.concat (map Buffer_toString chunks)) with
  | Throw _ =>
      client_view (connection faults req (map EvData chunks ++ [EvEnd])) =
        json_response 400
          (error_envelope VNull (-32700) (lit "Parse error")) /\
      uncaught (connection faults req (map EvData chunks ++ [EvEnd])) = None
  | Normal parsed =>
      (client_view (connection faults req (map EvData chunks ++ [EvEnd])) = [] /\
       exists e,
         uncaught (connection faults req (map EvData chunks ++ [EvEnd])) = Some e) \/
      (uncaught (connection faults req (map EvData chunks ++ [EvEnd])) = None /\
       exists status payload,
         client_view (connection faults req (map EvData chunks ++ [EvEnd])) =
           json_response status
             (envelope payload (request_id parsed)))
  end.
Proof.
  intros Hm Hlen. unfold connection. rewrite fold_left_app. cbn [fold_left].
  destruct (post_request_starts faults req Hm)
    as (Hb & Hs & Hc & Hl & Hi & Hu).
  set (st0 := run_callback (requestListener req) (initial faults)) in *.
  destruct (data_events_exact chunks st0 Hu) as (B1 & B2 & B3 & B4 & B5 & B6).
  { unfold has_listener. rewrite Hl. reflexivity. }
  { rewrite Hs, Hb. reflexivity. }
  cbv zeta in *. set (st := fold_left deliver (map EvData chunks) st0) in *.
  rewrite Hb in B1. cbn [app] in B1.
  assert (Halive : socket_destroyed st = false)
    by (rewrite B2, B1; apply N.ltb_ge, Hlen).
  assert (Hd : deliver st EvEnd = run_callback on_end st).
  { unfold deliver, has_listener. rewrite B3, B4, Hl. reflexivity. }
  rewrite Hd, <- B1. unfold client_view.
  destruct (JSON_parse (body st)) as [parsed|e] eqn:Hp.
  - destruct (on_end_outcome st parsed Hp) as (r & calls & Hr & Hcase).
    destruct (run_callback_runs _ _ _ _ Hr) as (A1 & _ & A3 & _ & _ & A6).
    rewrite A3, Halive, A1, A6, B6, Hc. cbn [app].
    destruct Hcase as [[[e ->] ->]|[-> Hcalls]].
    + left. eauto.
    + right. split; [exact B3 | exact Hcalls].
  - pose proof (on_end_parse_error st e Hp) as Hr.
    destruct (run_callback_runs _ _ _ _ Hr) as (A1 & _ & A3 & _ & _ & A6).
    rewrite A3, Halive, A1, A6, B6, Hc. cbn [app]. auto.
Qed.


End Server.

(** ** Sample runs *)

(** A runtime for the sample runs: [JSON.parse] on the handful of bodies used
    below (every other body is rejected, as the ones used are), the
    formatting of the numbers that occur in them, and a stack that gives
    [JSON.stringify] no more than the eight levels, so that a body that is
    too deep for it stays short. *)
Definition ascii_chunk (s : string) : list Byte.byte := list_byte_of_string s.
Arguments ascii_chunk s%_string.

Definition quoted (s : string) : jsstring := dquote ++ lit s ++ dquote.
Arguments quoted s%_string.

(** [null] *)
Definition body_null : jsstring := lit "null".

(** [42] *)
Definition body_number : jsstring := lit "42".

(** [{"method":"unknown-thing","id":5}] *)
Definition body_unknown_method : jsstring :=
  lit "{" ++ quoted "method" ++ lit ":" ++ quoted "unknown-thing" ++ lit ","
  ++ quoted "id" ++ lit ":5}".

Definition unknown_method_request : value :=
  VObject [(lit "method", str "unknown-thing"); (lit "id", VNumber 5)].

(** [{"method":"ping","id":0}] *)
Definition body_ping_id_zero : jsstring :=
  lit "{" ++ quoted "method" ++ lit ":" ++ quoted "ping" ++ lit ","
  ++ quoted "id" ++ lit ":0}".

Definition ping_id_zero_request : value :=
  VObject [(lit "method", str "ping"); (lit "id", VNumber 0)].

(** [{"method":"ping","id":1e400}]: the number is beyond the doubles, and
    [JSON.parse] gives [Infinity]. *)
Definition body_ping_id_huge : jsstring :=
  lit "{" ++ quoted "method" ++ lit ":" ++ quoted "ping" ++ lit ","
  ++ quoted "id" ++ lit ":1e400}".

Definition ping_id_huge_request : value :=
  VObject [(lit "method", str "ping"); (lit "id", VNumber PrimFloat.infinity)].

(** [{"method":"ping","id":null}] *)
Definition body_ping_id_null : jsstring :=
  lit "{" ++ quoted "method" ++ lit ":" ++ quoted "ping" ++ lit ","
  ++ quoted "id" ++ lit ":null}".

Definition ping_id_null_request : value :=
  VObject [(lit "method", str "ping"); (lit "id", VNull)].

(** [{"method":"tools/call","id":7,"params":{"name":""}}] *)
Definition body_empty_tool_name : jsstring :=
  lit "{" ++ quoted "method" ++ lit ":" ++ quoted "tools/call" ++ lit ","
  ++ quoted "id" ++ lit ":7," ++ quoted "params" ++ lit ":{"
  ++ quoted "name" ++ lit ":" ++ quoted "" ++ lit "}}".

Definition empty_tool_name_request : value :=
  VObject [(lit "method", str "tools/call"); (lit "id", VNumber 7);
           (lit "params", VObject [(lit "name", str "")])].

(** [{"jsonrpc":"2.0","method":"tools/call","id":1,"params":{"name":{"toString":1}}}] *)
Definition body_tool_named_by_object : jsstring :=
  lit "{" ++ quoted "jsonrpc" ++ lit ":" ++ quoted "2.0" ++ lit ","
  ++ quoted "method" ++ lit ":" ++ quoted "tools/call" ++ lit ","
  ++ quoted "id" ++ lit ":1," ++ quoted "params" ++ lit ":{"
  ++ quoted "name" ++ lit ":{" ++ quoted "toString" ++ lit ":1}}}".

(** [{"jsonrpc":"2.0","method":"tools/list","id":1}] *)
Definition body_tools_list : jsstring :=
  lit "{" ++ quoted "jsonrpc" ++ lit ":" ++ quoted "2.0" ++ lit ","
  ++ quoted "method" ++ lit ":" ++ quoted "tools/list" ++ lit ","
  ++ quoted "id" ++ lit ":1}".

Definition tools_list_request : value :=
  VObject [(lit "jsonrpc", str "2.0"); (lit "method", str "tools/list");
           (lit "id", VNumber 1)].

(** [{"jsonrpc":"2.0","method":"tools/call","id":2,
      "params":{"name":"echo","arguments":{"message":"hi"}}}] *)
Definition body_echo_hi : jsstring :=
  lit "{" ++ quoted "jsonrpc" ++ lit ":" ++ quoted "2.0" ++ lit ","
  ++ quoted "method" ++ lit ":" ++ quoted "tools/call" ++ lit ","
  ++ quoted "id" ++ lit ":2," ++ quoted "params" ++ lit ":{"
  ++ quoted "name" ++ lit ":" ++ quoted "echo" ++ lit ","
  ++ quoted "arguments" ++ lit ":{" ++ quoted "message" ++ lit ":"
  ++ quoted "hi" ++ lit "}}}".

Definition echo_hi_request : value :=
  VObject [(lit "jsonrpc", str "2.0"); (lit "method", str "tools/call");
           (lit "id", VNumber 2);
           (lit "params",
            VObject [(lit "name", str "echo");
                     (lit "arguments", VObject [(lit "message", str "hi")])])].

(** [{"jsonrpc":"2.0","method":"tools/call","id":3,"params":{"name":"nope"}}] *)
Definition body_nope : jsstring :=
  lit "{" ++ quoted "jsonrpc" ++ lit ":" ++ quoted "2.0" ++ lit ","
  ++ quoted "method" ++ lit ":" ++ quoted "tools/call" ++ lit ","
  ++ quoted "id" ++ lit ":3," ++ quoted "params" ++ lit ":{"
  ++ quoted "name" ++ lit ":" ++ quoted "nope" ++ lit "}}".

Definition nope_request : value :=
  VObject [(lit "jsonrpc", str "2.0"); (lit "method", str "tools/call");
           (lit "id", VNumber 3);
           (lit "params", VObject [(lit "name", str "nope")])].

(** [{"method":"tools/call","id":4,"params":{"name":["a",null,"b"]}}]: the
    name is shown as the array joined with commas. *)
Definition body_array_name : jsstring :=
  lit "{" ++ quoted "method" ++ lit ":" ++ quoted "tools/call" ++ lit ","
  ++ quoted "id" ++ lit ":4," ++ quoted "params" ++ lit ":{"
  ++ quoted "name" ++ lit ":[" ++ quoted "a" ++ lit ",null," ++ quoted "b"
  ++ lit "]}}".

Definition array_name_request : value :=
  VObject [(lit "method", str "tools/call"); (lit "id", VNumber 4);
           (lit "params",
            VObject [(lit "name", VArray [str "a"; VNull; str "b"])])].

Definition sample_room : nat := 0.

(** [{"method":"unknown-thing","id":5,"params":[[[[[[[[[]]]]]]]]]}]: nine
    arrays in an object, deeper than the sample stack allows. *)
Definition body_deep_params : jsstring :=
  lit "{" ++ quoted "method" ++ lit ":" ++ quoted "unknown-thing" ++ lit ","
  ++ quoted "id" ++ lit ":5," ++ quoted "params"
  ++ lit ":[[[[[[[[[]]]]]]]]]}".

(** [{"method":"tools/call","id":[[[[[[[[[]]]]]]]]],"params":{"name":""}}] *)
Definition body_deep_id : jsstring :=
  lit "{" ++ quoted "method" ++ lit ":" ++ quoted "tools/call" ++ lit ","
  ++ quoted "id" ++ lit ":[[[[[[[[[]]]]]]]]]," ++ quoted "params" ++ lit ":{"
  ++ quoted "name" ++ lit ":" ++ quoted "" ++ lit "}}".

(** [{"method":"ping","id":1,"extra":[[[[[[[[]]]]]]]]}]: too deep as a
    whole, while its log line, which leaves [extra] out, is not. *)
Definition body_deep_extra : jsstring :=
  lit "{" ++ quoted "method" ++ lit ":" ++ quoted "ping" ++ lit ","
  ++ quoted "id" ++ lit ":1," ++ quoted "extra" ++ lit ":[[[[[[[[]]]]]]]]}".

Definition deep_extra_request : value :=
  VObject [(lit "method", str "ping"); (lit "id", VNumber 1);
           (lit "extra", deeply_nested 7)].

Definition sample_bodies : list (jsstring * value) :=
  [(body_null, VNull);
   (body_number, VNumber 42);
   (body_unknown_method, unknown_method_request);
   (body_ping_id_zero, ping_id_zero_request);
   (body_ping_id_huge, ping_id_huge_request);
   (body_ping_id_null, ping_id_null_request);
   (body_empty_tool_name, empty_tool_name_request);
   (body_tool_named_by_object, tool_named_by_object);
   (body_tools_list, tools_list_request);
   (body_echo_hi, echo_hi_request);
   (body_nope, nope_request);
   (body_array_name, array_name_request);
   (body_deep_params, unknown_method_deep_params sample_room);
   (body_deep_id, empty_tool_name_deep_id sample_room);
   (body_deep_extra, deep_extra_request)].

Definition sample_parse (b : jsstring) : completion value :=
  match own sample_bodies b with
  | Some v => Normal v
  | None => Throw SyntaxError
  end.

(** Number::toString on the numbers of the sample runs. *)
Definition shown_as (f : float) (s : string) : float * string := (f, s).
Arguments shown_as f%_float s%_string.

Definition sample_numbers : list (float * string) :=
  [shown_as 0 "0"; shown_as 1 "1"; shown_as 2 "2"; shown_as 3 "3";
   shown_as 4 "4"; shown_as 5 "5"; shown_as 7 "7"; shown_as 42 "42";
   shown_as (-32700) "-32700"; shown_as (-32601) "-32601";
   shown_as (-32602) "-32602"; shown_as (-32000) "-32000"].

Definition sample_toString (f : float) : jsstring :=
  match find (fun entry => PrimFloat.eqb (fst entry) f) sample_numbers with
  | Some entry => lit (snd entry)
  | None => lit "NaN"
  end.

Definition sample_connection : list bool -> request -> list event -> state :=
  connection sample_parse sample_toString sample_room.

Definition sample_on_end : M unit :=
  on_end sample_parse sample_toString sample_room.

Definition sample_text : value -> jsstring := JSON_text sample_toString.

(** A POST request whose body arrived in one chunk. *)
Definition posted (chunk : list Byte.byte) : state :=
  sample_connection [] post_request [EvData chunk].

Definition posted_text (b : jsstring) : list Byte.byte :=
  map (fun c => match Byte.of_N c with Some x => x | None => Byte.x00 end) b.

Definition posted_with_faults (faults : list bool) (b : jsstring) : state :=
  sample_connection faults post_request [EvData (posted_text b)].

(** The whole exchange: the body in one chunk, then its end; what the client
    is sent. *)
Definition exchange (b : jsstring) : list res_call :=
  client_view (sample_connection [] post_request [EvData (posted_text b); EvEnd]).

Example posted_body_null : body (posted (ascii_chunk "null")) = body_null.
Proof. reflexivity. Qed.

Example posted_body_unknown_method :
  body (posted (posted_text body_unknown_method)) = body_unknown_method.
Proof. reflexivity. Qed.

(** The examples of the specification, as the client sees them. *)
Example tools_list_exchange :
  exchange body_tools_list =
    [WriteHead 200 json_headers;
     End (Some
            (lit "{" ++ quoted "jsonrpc" ++ lit ":" ++ quoted "2.0" ++ lit ","
             ++ quoted "result" ++ lit ":{" ++ quoted "tools" ++ lit ":[{"
             ++ quoted "name" ++ lit ":" ++ quoted "echo" ++ lit ","
             ++ quoted "description" ++ lit ":"
             ++ quoted "Echoes the provided input back as result" ++ lit ","
             ++ quoted "parameters" ++ lit ":{" ++ quoted "type" ++ lit ":"
             ++ quoted "object" ++ lit "," ++ quoted "properties" ++ lit ":{"
             ++ quoted "message" ++ lit ":{" ++ quoted "type" ++ lit ":"
             ++ quoted "string" ++ lit "}}," ++ quoted "required" ++ lit ":["
             ++ quoted "message" ++ lit "]}}]}," ++ quoted "id" ++ lit ":1}"))].
Proof. vm_compute. reflexivity. Qed.

Example echo_hi_exchange :
  exchange body_echo_hi =
    [WriteHead 200 json_headers;
     End (Some
            (lit "{" ++ quoted "jsonrpc" ++ lit ":" ++ quoted "2.0" ++ lit ","
             ++ quoted "result" ++ lit ":{" ++ quoted "type" ++ lit ":"
             ++ quoted "tool_result" ++ lit "," ++ quoted "value" ++ lit ":{"
             ++ quoted "output" ++ lit ":" ++ quoted "hi" ++ lit "}},"
             ++ quoted "id" ++ lit ":2}"))].
Proof. vm_compute. reflexivity. Qed.

Example nope_exchange :
  exchange body_nope =
    [WriteHead 404 json_headers;
     End (Some
            (lit "{" ++ quoted "jsonrpc" ++ lit ":" ++ quoted "2.0" ++ lit ","
             ++ quoted "error" ++ lit ":{" ++ quoted "code" ++ lit ":-32000,"
             ++ quoted "message" ++ lit ":" ++ quoted "Tool not found: nope"
             ++ lit "}," ++ quoted "id" ++ lit ":3}"))].
Proof. vm_compute. reflexivity. Qed.

Example array_name_exchange :
  exchange body_array_name =
    [WriteHead 404 json_headers;
     End (Some
            (lit "{" ++ quoted "jsonrpc" ++ lit ":" ++ quoted "2.0" ++ lit ","
             ++ quoted "error" ++ lit ":{" ++ quoted "code" ++ lit ":-32000,"
             ++ quoted "message" ++ lit ":" ++ quoted "Tool not found: a,,b"
             ++ lit "}," ++ quoted "id" ++ lit ":4}"))].
Proof. vm_compute. reflexivity. Qed.

Example unknown_method_exchange :
  exchange body_unknown_method =
    [WriteHead 404 json_headers;
     End (Some
            (lit "{" ++ quoted "jsonrpc" ++ lit ":" ++ quoted "2.0" ++ lit ","
             ++ quoted "error" ++ lit ":{" ++ quoted "code" ++ lit ":-32601,"
             ++ quoted "message" ++ lit ":" ++ quoted "Method not found"
             ++ lit "}," ++ quoted "id" ++ lit ":5}"))].
Proof. vm_compute. reflexivity. Qed.

Example invalid_json_exchange :
  exchange (lit "{") =
    [WriteHead 400 json_headers;
     End (Some
            (lit "{" ++ quoted "jsonrpc" ++ lit ":" ++ quoted "2.0" ++ lit ","
             ++ quoted "error" ++ lit ":{" ++ quoted "code" ++ lit ":-32700,"
             ++ quoted "message" ++ lit ":" ++ quoted "Parse error"
             ++ lit "}," ++ quoted "id" ++ lit ":null}"))].
Proof. vm_compute. reflexivity. Qed.

(** A string is quoted with the escapes of JSON. *)
Example quote_escapes :
  QuoteJSONString [97; 34; 92; 10; 1; 0xD83D; 0xDE00; 0xD800] =
  [34; 97; 92; 34; 92; 92; 92; 110] ++ lit "\u0001" ++ [0xD83D; 0xDE00]
  ++ lit "\ud800" ++ [34].
Proof. reflexivity. Qed.

(** *** The properties C1 to C10 on sample requests *)

(** The body [{] does not parse. *)
Lemma C3_witness :
  runs (posted (ascii_chunk "{")) sample_on_end (Normal tt)
    (json_response sample_toString 400
       (error_envelope VNull (-32700) (lit "Parse error"))).
Proof.
  apply (C3_unparseable_body_gets_parse_error sample_parse sample_toString sample_room
           (posted (ascii_chunk "{")) SyntaxError).
  reflexivity.
Defined.

(** The body [42]. *)
Lemma C10_witness :
  get (VNumber 42) (lit "method") = Normal VUndefined /\
  runs (posted (ascii_chunk "42")) sample_on_end (Normal tt)
    (json_response sample_toString 404
       (error_envelope VNull (-32601) (lit "Method not found"))).
Proof.
  apply (C10_scalar_or_array_body_is_method_not_found
           sample_parse sample_toString sample_room
           (posted (ascii_chunk "42")) (VNumber 42));
    reflexivity.
Defined.

(** The body [{"method":"ping","id":0}]: the id 0 is falsy, and echoed. *)
Lemma C2_witness :
  runs (posted (posted_text body_ping_id_zero)) sample_on_end (Normal tt)
    [WriteHead 200 json_headers;
     End (Some (envelope_text (lit "result") (sample_text (VObject []))
                  (sample_text (request_id ping_id_zero_request))))].
Proof.
  apply (C2_envelope_echoes_request_id sample_parse sample_toString sample_room
           (posted (posted_text body_ping_id_zero)) ping_id_zero_request
           (str "ping") 200 (lit "result") (VObject []));
    reflexivity.
Defined.

(** The id 0 comes back as [0]. *)
Example id_zero_exchange :
  exchange body_ping_id_zero =
    [WriteHead 200 json_headers;
     End (Some
            (lit "{" ++ quoted "jsonrpc" ++ lit ":" ++ quoted "2.0" ++ lit ","
             ++ quoted "result" ++ lit ":{}," ++ quoted "id" ++ lit ":0}"))].
Proof. vm_compute. reflexivity. Qed.

(** C2, as stated, fails on numeric ids: the request
    [{"method":"ping","id":1e400}] has the id 1e400, which JavaScript holds
    as [Infinity], and the envelope sent back carries the id [null], the
    very answer that the request with [id] null gets. *)
Lemma C2_counterexample :
  sample_parse body_ping_id_huge = Normal ping_id_huge_request /\
  request_id ping_id_huge_request = VNumber PrimFloat.infinity /\
  exchange body_ping_id_huge =
    [WriteHead 200 json_headers;
     End (Some
            (lit "{" ++ quoted "jsonrpc" ++ lit ":" ++ quoted "2.0" ++ lit ","
             ++ quoted "result" ++ lit ":{}," ++ quoted "id" ++ lit ":null}"))] /\
  exchange body_ping_id_huge = exchange body_ping_id_null.
Proof. vm_compute. auto. Qed.

(** The body [{"method":"unknown-thing","id":5,"params":[[[[[[[[[]]]]]]]]]}]. *)
Lemma C5_witness :
  get (unknown_method_deep_params sample_room) (lit "method") =
    Normal (str "unknown-thing") /\
  existsb (strict_eq_str (str "unknown-thing")) known_methods = false /\
  runs (posted (posted_text body_deep_params)) sample_on_end (Throw RangeError) [] /\
  uncaught (run_callback sample_on_end (posted (posted_text body_deep_params))) =
    Some RangeError /\
  res_calls (run_callback sample_on_end (posted (posted_text body_deep_params))) =
    res_calls (posted (posted_text body_deep_params)).
Proof.
  apply (C5_deep_params_throw sample_parse sample_toString sample_room
           (posted (posted_text body_deep_params))).
  reflexivity.
Defined.

(** The body [null]. *)
Lemma C6_witness :
  runs (posted (ascii_chunk "null")) sample_on_end (Throw TypeError) [] /\
  uncaught (run_callback sample_on_end (posted (ascii_chunk "null"))) =
    Some TypeError /\
  res_calls (run_callback sample_on_end (posted (ascii_chunk "null"))) =
    res_calls (posted (ascii_chunk "null")).
Proof.
  apply (C6_null_body_throws sample_parse sample_toString sample_room
           (posted (ascii_chunk "null"))).
  reflexivity.
Defined.

(** The body
    [{"method":"tools/call","id":[[[[[[[[[]]]]]]]]],"params":{"name":""}}]. *)
Lemma C9_witness :
  get (empty_tool_name_deep_id sample_room) (lit "method") =
    Normal (str "tools/call") /\
  ToBoolean (member (request_params (empty_tool_name_deep_id sample_room))
               (lit "name")) = false /\
  ToBoolean (member (member (request_params (empty_tool_name_deep_id sample_room))
                       (lit "tool")) (lit "name")) = false /\
  runs (posted (posted_text body_deep_id)) sample_on_end (Throw RangeError) [] /\
  uncaught (run_callback sample_on_end (posted (posted_text body_deep_id))) =
    Some RangeError /\
  res_calls (run_callback sample_on_end (posted (posted_text body_deep_id))) =
    res_calls (posted (posted_text body_deep_id)).
Proof.
  apply (C9_deep_id_throws sample_parse sample_toString sample_room
           (posted (posted_text body_deep_id))).
  reflexivity.
Defined.

(** The body
    [{"jsonrpc":"2.0","method":"tools/call","id":1,"params":{"name":{"toString":1}}}]. *)
Lemma C1_witness :
  ToBoolean (tool_name tool_named_by_object) = true /\
  strict_eq_str (tool_name tool_named_by_object) (lit "echo") = false /\
  runs (posted (posted_text body_tool_named_by_object)) sample_on_end
    (Throw TypeError) [] /\
  uncaught (run_callback sample_on_end
              (posted (posted_text body_tool_named_by_object))) = Some TypeError /\
  res_calls (run_callback sample_on_end
               (posted (posted_text body_tool_named_by_object))) =
    res_calls (posted (posted_text body_tool_named_by_object)).
Proof.
  apply (C1_object_tool_name_throws sample_parse sample_toString sample_room
           (posted (posted_text body_tool_named_by_object))).
  reflexivity.
Defined.

(** *** The SSE route, run *)

Definition sse_request : request :=
  {| req_method := lit "GET"; req_url := lit "/sse" |}.

(** The request [GET /sse]. *)
Lemma C7_witness :
  res_calls (sample_connection [] sse_request []) =
    [WriteHead 200 sse_headers; Write sse_message_event] /\
  (forall evs,
     no_close evs = true ->
     res_calls (sample_connection [] sse_request evs) =
       sse_stream (elapsed evs / 15000) /\
     interval (sample_connection [] sse_request evs) <> None) /\
  (forall evs later,
     res_calls (sample_connection [] sse_request (evs ++ EvClose :: later)) =
       res_calls (sample_connection [] sse_request evs) /\
     interval (sample_connection [] sse_request (evs ++ EvClose :: later)) = None).
Proof.
  apply (C7_sse_stream_and_close sample_parse sample_toString sample_room
           [] sse_request);
    reflexivity.
Defined.

(** 40 seconds connected, then closed, then another minute: two pings. *)
Example sse_forty_seconds_then_closed :
  res_calls (sample_connection [] sse_request
               [EvElapse 40000; EvClose; EvElapse 60000]) =
    [WriteHead 200 sse_headers; Write sse_message_event;
     Write sse_ping_event; Write sse_ping_event].
Proof. vm_compute. reflexivity. Qed.

(** *** Log writes, run *)

(** With both appends failing nothing is logged to the files; the response is
    the same. *)
Example ping_logged_or_not :
  let run faults :=
    sample_connection faults post_request
      [EvData (posted_text body_ping_id_zero); EvEnd] in
  List.length (files (run [])) = 2%nat /\
  files (run [true; true]) = [] /\
  res_calls (run []) = res_calls (run [true; true]) /\
  res_calls (run []) =
    json_response sample_toString 200 (result_envelope (VNumber 0) (VObject [])).
Proof. vm_compute. auto. Qed.

(** *** The body limit, run *)

Lemma posted_state chunk :
  body (posted chunk) = Buffer_toString chunk /\
  socket_destroyed (posted chunk) = (1000000 <? js_length (Buffer_toString chunk)) /\
  res_calls (posted chunk) = [] /\
  listeners (posted chunk) = [OnData; OnEnd] /\
  uncaught (posted chunk) = None.
Proof.
  destruct (post_body_state sample_parse sample_toString sample_room
              [] post_request [chunk] eq_refl) as (Hb & Hs & Hc & Hu).
  cbn [map List.concat] in *. rewrite app_nil_r in *.
  unfold posted, sample_connection. repeat split; auto.
  unfold connection. cbn [fold_left].
  destruct (post_request_starts sample_toString sample_room [] post_request eq_refl)
    as (_ & _ & _ & Hl & _ & Hu0).
  unfold deliver, has_listener. rewrite Hu0, Hl. cbn [existsb listener_eqb orb].
  destruct (on_data_state chunk
              (run_callback (requestListener sample_toString sample_room post_request)
                 (initial []))) as (_ & _ & _ & A4 & _).
  rewrite A4. exact Hl.
Qed.

Lemma decode_euro_signs n : Buffer_toString (euro_signs n) = repeat 0x20AC n.
Proof.
  unfold Buffer_toString, euro_signs.
  induction n as [|n IH]; [reflexivity|].
  cbn [repeat List.concat]. unfold euro_sign at 1. cbn [app].
  change (utf8_decode None (Byte.xe2 :: Byte.x82 :: Byte.xac :: List.concat (repeat euro_sign n)))
    with (0x20AC :: utf8_decode None (List.concat (repeat euro_sign n))).
  rewrite IH. reflexivity.
Qed.

Lemma length_euro_signs n : List.length (euro_signs n) = (3 * n)%nat.
Proof.
  unfold euro_signs. induction n as [|n IH]; [reflexivity|].
  cbn [repeat List.concat]. rewrite length_app, IH. cbn [euro_sign List.length]. lia.
Qed.

Lemma sample_parse_rejects_euro n :
  sample_parse (repeat 0x20AC (S n)) = Throw SyntaxError.
Proof. reflexivity. Qed.

(** C4, as stated in bytes, fails: a body of 400,000 euro signs is 1,200,000
    bytes long but only 400,000 code units; the 'data' callback leaves the
    socket alone, and at the end of the body the client is sent a JSON-RPC
    error (the body is no JSON). *)
Lemma C4_counterexample :
  1000000 < N.of_nat (List.length (euro_signs (N.to_nat 400000))) /\
  js_length (Buffer_toString (euro_signs (N.to_nat 400000))) = 400000 /\
  socket_destroyed (posted (euro_signs (N.to_nat 400000))) = false /\
  client_view
    (deliver sample_parse sample_toString sample_room
       (posted (euro_signs (N.to_nat 400000))) EvEnd) =
    json_response sample_toString 400
      (error_envelope VNull (-32700) (lit "Parse error")).
Proof.
  assert (Hlen : js_length (Buffer_toString (euro_signs (N.to_nat 400000))) = 400000).
  { rewrite decode_euro_signs. unfold js_length. rewrite repeat_length.
    apply N2Nat.id. }
  destruct (posted_state (euro_signs (N.to_nat 400000))) as (Hb & Hs & Hc & Hl & Hu).
  rewrite Hlen in Hs.
  split; [|split; [exact Hlen|split; [exact Hs|]]].
  - rewrite length_euro_signs, Nat2N.inj_mul, N2Nat.id. reflexivity.
  - unfold deliver, has_listener. rewrite Hu, Hl. cbn [existsb listener_eqb orb].
    assert (Hp : sample_parse (body (posted (euro_signs (N.to_nat 400000)))) =
                 Throw SyntaxError).
    { rewrite Hb, decode_euro_signs.
      change 400000 with (N.succ 399999). rewrite N2Nat.inj_succ.
      apply sample_parse_rejects_euro. }
    pose proof (on_end_parse_error sample_parse sample_toString sample_room
                  _ _ Hp) as R.
    destruct (run_callback_runs _ _ _ _ R) as (A1 & _ & A3 & _).
    unfold client_view. rewrite A3, Hs, A1, Hc. reflexivity.
Qed.

Definition letter_a_chunk : list Byte.byte := repeat Byte.x61 (N.to_nat 1000001).

Lemma decode_letters n : Buffer_toString (repeat Byte.x61 n) = repeat 97 n.
Proof.
  unfold Buffer_toString. induction n as [|n IH]; [reflexivity|].
  cbn [repeat].
  change (utf8_decode None (Byte.x61 :: repeat Byte.x61 n))
    with (97 :: utf8_decode None (repeat Byte.x61 n)).
  rewrite IH. reflexivity.
Qed.

(** A body of 1,000,001 letters [a], in one chunk. *)
Lemma C4_witness :
  body (sample_connection [] post_request (map EvData [letter_a_chunk])) =
    List.concat (map Buffer_toString [letter_a_chunk]) /\
  socket_destroyed
    (sample_connection [] post_request (map EvData [letter_a_chunk])) = true /\
  res_calls
    (sample_connection [] post_request (map EvData [letter_a_chunk])) = [] /\
  forall later,
    client_view
      (sample_connection [] post_request
         (map EvData [letter_a_chunk] ++ later)) = [].
Proof.
  apply (C4_body_over_limit_destroys_socket
           sample_parse sample_toString sample_room [] post_request
           [letter_a_chunk]).
  - reflexivity.
  - cbn [map List.concat]. rewrite app_nil_r. unfold letter_a_chunk.
    rewrite decode_letters. unfold js_length. rewrite repeat_length, N2Nat.id.
    reflexivity.
Defined.

(** *** The routes, run *)

Definition health_request : request :=
  {| req_method := lit "GET"; req_url := lit "/health" |}.

(** [GET /health?probe=1]: not the health route. *)
Definition health_query_request : request :=
  {| req_method := lit "GET"; req_url := lit "/health?probe=1" |}.

Definition post_to_sse_request : request :=
  {| req_method := lit "POST"; req_url := lit "/sse" |}.

(** [GET /health], followed by a stray chunk, a minute and a close. *)
Lemma health_route_witness :
  sample_connection [true] health_request
    [EvData (ascii_chunk "x"); EvElapse 60000; EvClose] =
  sample_connection [true] health_request [] /\
  res_calls (sample_connection [true] health_request
               [EvData (ascii_chunk "x"); EvElapse 60000; EvClose]) =
    [WriteHead 200 json_headers;
     End (Some (JSON_text sample_toString (VObject [(lit "status", str "ok")])))] /\
  idle (sample_connection [true] health_request
          [EvData (ascii_chunk "x"); EvElapse 60000; EvClose]) /\
  stdout (sample_connection [true] health_request
            [EvData (ascii_chunk "x"); EvElapse 60000; EvClose]) = [] /\
  files (sample_connection [true] health_request
           [EvData (ascii_chunk "x"); EvElapse 60000; EvClose]) = [] /\
  fs_faults (sample_connection [true] health_request
               [EvData (ascii_chunk "x"); EvElapse 60000; EvClose]) = [true] /\
  uncaught (sample_connection [true] health_request
              [EvData (ascii_chunk "x"); EvElapse 60000; EvClose]) = None.
Proof.
  apply (health_route_is_stateless sample_parse sample_toString sample_room
           [true] health_request).
  reflexivity.
Defined.

(** The health answer, as text. *)
Example health_exchange :
  res_calls (sample_connection [] health_request []) =
    [WriteHead 200 json_headers;
     End (Some (lit "{" ++ quoted "status" ++ lit ":" ++ quoted "ok" ++ lit "}"))].
Proof. vm_compute. reflexivity. Qed.

(** [GET /health?probe=1] gets 405. *)
Lemma other_requests_witness :
  sample_connection [] health_query_request [EvEnd] =
  sample_connection [] health_query_request [] /\
  res_calls (sample_connection [] health_query_request [EvEnd]) =
    [WriteHead 405 []; End None] /\
  idle (sample_connection [] health_query_request [EvEnd]) /\
  stdout (sample_connection [] health_query_request [EvEnd]) = [] /\
  files (sample_connection [] health_query_request [EvEnd]) = [] /\
  uncaught (sample_connection [] health_query_request [EvEnd]) = None.
Proof.
  apply (other_requests_get_405 sample_parse sample_toString sample_room
           [] health_query_request);
    reflexivity.
Defined.

(** [POST /sse] is a JSON-RPC request like [POST /]. *)
Lemma post_url_witness :
  sample_connection [] post_to_sse_request
    [EvData (posted_text body_ping_id_zero); EvEnd] =
  sample_connection [] post_request
    [EvData (posted_text body_ping_id_zero); EvEnd].
Proof.
  apply (post_ignores_the_url sample_parse sample_toString sample_room
           [] post_to_sse_request post_request);
    reflexivity.
Defined.

(** The body [42], received as [4] and [2]. *)
Lemma body_guard_witness :
  body (sample_connection [] post_request
          (map EvData [ascii_chunk "4"; ascii_chunk "2"])) =
    List.concat (map Buffer_toString [ascii_chunk "4"; ascii_chunk "2"]) /\
  socket_destroyed (sample_connection [] post_request
                      (map EvData [ascii_chunk "4"; ascii_chunk "2"])) =
    (1000000 <? js_length
                  (List.concat (map Buffer_toString [ascii_chunk "4"; ascii_chunk "2"]))) /\
  res_calls (sample_connection [] post_request
               (map EvData [ascii_chunk "4"; ascii_chunk "2"])) = [] /\
  uncaught (sample_connection [] post_request
              (map EvData [ascii_chunk "4"; ascii_chunk "2"])) = None.
Proof.
  apply (body_guard_is_exact sample_parse sample_toString sample_room
           [] post_request [ascii_chunk "4"; ascii_chunk "2"]).
  reflexivity.
Defined.

(** A euro sign cut after its first byte: three bytes in two chunks. *)
Lemma byte_limit_witness :
  socket_destroyed
    (sample_connection [] post_request
       (map EvData [[Byte.xe2]; [Byte.x82; Byte.xac]])) = false.
Proof.
  apply (body_within_byte_limit_is_kept sample_parse sample_toString sample_room
           [] post_request [[Byte.xe2]; [Byte.x82; Byte.xac]]).
  - reflexivity.
  - cbn. lia.
Defined.

(** The bytes of [null], cut as [nu] and [ll]. *)
Lemma ascii_body_witness :
  body (sample_connection [] post_request
          (map EvData [ascii_chunk "nu"; ascii_chunk "ll"])) =
    map Byte.to_N (List.concat [ascii_chunk "nu"; ascii_chunk "ll"]).
Proof.
  apply (ascii_body_is_chunking_independent
           sample_parse sample_toString sample_room
           [] post_request [ascii_chunk "nu"; ascii_chunk "ll"]).
  - reflexivity.
  - repeat constructor.
Defined.

(** Decoding chunk by chunk is not decoding the whole: the euro sign cut
    after its first byte arrives as three replacement characters. *)
Example split_euro_sign_is_garbled :
  Buffer_toString [Byte.xe2; Byte.x82; Byte.xac] = [0x20AC] /\
  body (sample_connection [] post_request
          (map EvData [[Byte.xe2]; [Byte.x82; Byte.xac]])) =
    [0xFFFD; 0xFFFD; 0xFFFD].
Proof. split; reflexivity. Qed.

(** *** The methods and the tools, run *)

(** The body [{"method":"ping","id":0}]. *)
Lemma static_method_witness :
  runs (posted (posted_text body_ping_id_zero)) sample_on_end (Normal tt)
    (json_response sample_toString 200
       (result_envelope (request_id ping_id_zero_request) (VObject []))).
Proof.
  apply (static_method_answer sample_parse sample_toString sample_room
           (posted (posted_text body_ping_id_zero)) ping_id_zero_request
           (lit "ping") (VObject []));
    reflexivity.
Defined.

(** The body [42] has no method. *)
Lemma unknown_method_witness :
  runs (posted (ascii_chunk "42")) sample_on_end (Normal tt)
    (json_response sample_toString 404
       (error_envelope (request_id (VNumber 42)) (-32601) (lit "Method not found"))).
Proof.
  apply (unknown_method_answer sample_parse sample_toString sample_room
           (posted (ascii_chunk "42")) (VNumber 42) VUndefined);
    reflexivity.
Defined.

(** The body
    [{"jsonrpc":"2.0","method":"tools/call","id":2,"params":{"name":"echo","arguments":{"message":"hi"}}}]. *)
Lemma echo_tool_witness :
  runs (posted (posted_text body_echo_hi)) sample_on_end (Normal tt)
    (json_response sample_toString 200
       (result_envelope (request_id echo_hi_request)
          (VObject
             [(lit "type", str "tool_result");
              (lit "value",
               VObject
                 [(lit "output",
                   or_else (member (tool_arguments echo_hi_request) (lit "message"))
                     (str ""))])]))).
Proof.
  apply (echo_tool_answer sample_parse sample_toString sample_room
           (posted (posted_text body_echo_hi)) echo_hi_request (str "tools/call"));
    reflexivity.
Defined.

(** The body
    [{"jsonrpc":"2.0","method":"tools/call","id":3,"params":{"name":"nope"}}]. *)
Lemma unknown_tool_witness :
  runs (posted (posted_text body_nope)) sample_on_end (Normal tt)
    (json_response sample_toString 404
       (error_envelope (request_id nope_request) (-32000)
          (lit "Tool not found: " ++ lit "nope"))).
Proof.
  apply (unknown_tool_answer sample_parse sample_toString sample_room
           (posted (posted_text body_nope)) nope_request (str "tools/call") (lit "nope"));
    [reflexivity | reflexivity | reflexivity | reflexivity | discriminate
    | reflexivity | reflexivity | reflexivity].
Defined.

(** The body of [body_empty_tool_name]: a call whose [params.name] is the
    empty string. *)
Lemma missing_tool_name_witness :
  runs (posted (posted_text body_empty_tool_name)) sample_on_end (Normal tt)
    (json_response sample_toString 400
       (error_envelope (request_id empty_tool_name_request) (-32602)
          (lit "Missing tool name"))).
Proof.
  apply (missing_tool_name_answer sample_parse sample_toString sample_room
           (posted (posted_text body_empty_tool_name)) empty_tool_name_request
           (str "tools/call"));
    reflexivity.
Defined.

(** *** The logs, run *)

(** The body [{"method":"ping","id":0}] while the first append fails and the
    second succeeds. *)
Lemma request_log_trail_witness :
  (too_deep sample_room (log_object ping_id_zero_request) = true /\
   effect (posted_with_faults [true; false] body_ping_id_zero) sample_on_end
     (Throw RangeError) []
     [incoming_line sample_toString sample_room ping_id_zero_request] [] 0) \/
  (too_deep sample_room (log_object ping_id_zero_request) = false /\
   exists e,
     effect (posted_with_faults [true; false] body_ping_id_zero) sample_on_end
       (Throw e) []
       (request_console_lines sample_toString sample_room ping_id_zero_request)
       (appended
          (nth 0 (fs_faults (posted_with_faults [true; false] body_ping_id_zero)) false)
          requests_log (request_log_line sample_toString ping_id_zero_request))
       1) \/
  (too_deep sample_room (log_object ping_id_zero_request) = false /\
   exists label status data,
     (label = lit "MCP mock response:" \/ label = lit "MCP mock error response:") /\
     effect (posted_with_faults [true; false] body_ping_id_zero) sample_on_end
       (Normal tt)
       [WriteHead status json_headers; End (Some data)]
       (request_console_lines sample_toString sample_room ping_id_zero_request
        ++ [join_spaces [label; data]])
       (appended
          (nth 0 (fs_faults (posted_with_faults [true; false] body_ping_id_zero)) false)
          requests_log (request_log_line sample_toString ping_id_zero_request)
        ++ appended
             (nth 1 (fs_faults (posted_with_faults [true; false] body_ping_id_zero)) false)
             responses_log (data ++ newline))
       2).
Proof.
  apply (request_log_trail sample_parse sample_toString sample_room
           (posted_with_faults [true; false] body_ping_id_zero)
           ping_id_zero_request (str "ping"));
    reflexivity.
Defined.

(** With the first append failing, only the response reaches the logs. *)
Example first_append_fails_second_is_tried :
  files (snd (sample_on_end (posted_with_faults [true; false] body_ping_id_zero))) =
    [(responses_log,
      lit "{" ++ quoted "jsonrpc" ++ lit ":" ++ quoted "2.0" ++ lit ","
      ++ quoted "result" ++ lit ":{}," ++ quoted "id" ++ lit ":0}" ++ newline)].
Proof. vm_compute. reflexivity. Qed.

(** A request too deep as a whole is announced as unserializable; its log
    line, which holds the method, the id and the params only, is printed and
    the request is answered. *)
Example unserializable_request_is_answered :
  too_deep sample_room deep_extra_request = true /\
  stdout (snd (sample_on_end (posted (posted_text body_deep_extra)))) =
    [lit "Incoming JSON-RPC request (unserializable)";
     lit "MCP mock received request: {" ++ quoted "method" ++ lit ":"
     ++ quoted "ping" ++ lit "," ++ quoted "id" ++ lit ":1}";
     lit "MCP mock response: {" ++ quoted "jsonrpc" ++ lit ":" ++ quoted "2.0"
     ++ lit "," ++ quoted "result" ++ lit ":{}," ++ quoted "id" ++ lit ":1}"] /\
  exchange body_deep_extra =
    [WriteHead 200 json_headers;
     End (Some
            (lit "{" ++ quoted "jsonrpc" ++ lit ":" ++ quoted "2.0" ++ lit ","
             ++ quoted "result" ++ lit ":{}," ++ quoted "id" ++ lit ":1}"))].
Proof. vm_compute. auto. Qed.

(** A request whose params are too deep leaves the first console line and
    nothing else: no log line, no append, no response. *)
Example deep_params_leave_one_line :
  stdout (snd (sample_on_end (posted (posted_text body_deep_params)))) =
    [lit "Incoming JSON-RPC request (unserializable)"] /\
  files (snd (sample_on_end (posted (posted_text body_deep_params)))) = [] /\
  fs_faults (snd (sample_on_end (posted_with_faults [true] body_deep_params))) =
    [true] /\
  exchange body_deep_params = [].
Proof. vm_compute. auto. Qed.

(** The body [{]. *)
Lemma parse_error_log_witness :
  effect (posted_with_faults [] (lit "{")) sample_on_end (Normal tt)
    (json_response sample_toString 400
       (error_envelope VNull (-32700) (lit "Parse error")))
    [] [] 0.
Proof.
  apply (parse_error_is_not_logged sample_parse sample_toString sample_room
           (posted_with_faults [] (lit "{")) SyntaxError).
  reflexivity.
Defined.

(** *** A connection from its first event to its last, run *)

(** [GET /sse], closed after 20 seconds, a minute more, closed again. *)
Lemma sse_bound_witness :
  exists n,
    res_calls (sample_connection [] sse_request
                 [EvElapse 20000; EvClose; EvElapse 60000; EvClose]) = sse_stream n /\
    n <= elapsed [EvElapse 20000; EvClose; EvElapse 60000; EvClose] / 15000 /\
    uncaught (sample_connection [] sse_request
                [EvElapse 20000; EvClose; EvElapse 60000; EvClose]) = None.
Proof.
  apply (sse_writes_only_due_pings sample_parse sample_toString sample_room
           [] sse_request).
  reflexivity.
Defined.

(** The body [{"method":"ping","id":0}], in one chunk, then the end. *)
Lemma post_answered_witness :
  (client_view (sample_connection [] post_request
                  (map EvData [posted_text body_ping_id_zero] ++ [EvEnd])) = [] /\
   exists e,
     uncaught (sample_connection [] post_request
                 (map EvData [posted_text body_ping_id_zero] ++ [EvEnd])) = Some e) \/
  (uncaught (sample_connection [] post_request
               (map EvData [posted_text body_ping_id_zero] ++ [EvEnd])) = None /\
   exists status payload,
     client_view (sample_connection [] post_request
                    (map EvData [posted_text body_ping_id_zero] ++ [EvEnd])) =
       json_response sample_toString status
         (envelope payload (request_id ping_id_zero_request))).
Proof.
  exact (post_within_limit_is_answered sample_parse sample_toString sample_room
           [] post_request [posted_text body_ping_id_zero] eq_refl
           ltac:(vm_compute; discriminate)).
Defined.
